(** * ices0: the logging module (src/log.c)

    A shallow embedding of [log.c]: the module's globals ([ices_config],
    [lasterror]) and the part of the operating system it drives (standard
    streams, descriptors, the calls it makes to libc) are an explicit state;
    every C function of the file is a computation over that state.  A
    computation has no result where C gives the call no meaning: a [vsprintf]
    that runs past its buffer, a conversion without its argument, a [pclose]
    of a stream that is not an open pipe.  The other calls on a stream are
    recorded in the trace as they are made, with what the stream's descriptor
    is attached to at that moment ([NotOpen] once the stream is closed). *)

From Stdlib Require Import ZArith List String Ascii Bool Lia DecimalString.
Import ListNotations.

Local Open Scope string_scope.
Local Open Scope Z_scope.

(** ** Streams, descriptors and the trace of libc calls *)

(** A [FILE *]: one of the three standard streams, or the n-th stream that
    [fopen] or [popen] handed out. *)
Inductive FILE : Set :=
| stdin
| stdout
| stderr
| stream (id : nat).

Definition fileno (f : FILE) : Z :=
  match f with
  | stdin => 0
  | stdout => 1
  | stderr => 2
  | stream n => 3 + Z.of_nat n
  end.

(** What a descriptor is attached to. *)
Inductive endpoint : Set :=
| Terminal
| ToPath (path mode : string)
| ToProcess (cmd : string)
| NotOpen.

(** The sink kinds of the specification; the C code keeps the handle only and
    recovers the kind with [fstat] / [S_ISFIFO]. *)
Inductive kind : Set := Closed | RegularFile | PipeTee.

Inductive outcome : Set :=
| Succeeds
| Fails (err : Z).

Inductive event : Set :=
| Efopen (path mode : string) (res : option FILE)
| Efreopen (path mode : string) (f : FILE) (res : option FILE)
| Epopen (cmd mode : string) (res : option FILE)
| Efclose (f : FILE)
| Epclose (f : FILE)
| Eices_util_fclose (f : FILE)
| Edup2 (oldfd newfd res : Z)
| Efstat (fd res : Z)
| Ewrite (f : FILE) (dest : endpoint) (text : string)
| Efflush (f : FILE)
| Esetlinebuf (f : FILE).

Record world : Set := mkWorld {
  trace : list event;            (* libc calls made so far, oldest first *)
  fdtab : list (Z * endpoint);   (* descriptor table, newest binding first *)
  next_stream : nat;             (* next [FILE] to hand out *)
  outcomes : list outcome;       (* how the coming fallible calls end *)
  errno : Z
}.

(** ** The module's globals *)

Record ices_config_t : Set := mkConfig {
  base_directory : option string;   (* char *, NULL when unset *)
  daemon : bool;
  verbose : bool;
  logfile : option FILE             (* FILE *, NULL when there is none *)
}.

Record state : Set := mkState {
  ices_config : ices_config_t;
  lasterror : string;               (* static char lasterror[BUFSIZE] *)
  os : world
}.

(** What the build and the rest of the program provide: [BUFSIZE] comes from
    definitions.h, the three feature macros from the configure script, and
    [ices_util_strerror] from util.c. *)
Record platform : Type := mkPlatform {
  BUFSIZE : Z;
  REDIRECT_LOGGING : bool;
  HAVE_VSNPRINTF : bool;
  HAVE_SETLINEBUF : bool;
  ices_util_strerror : Z -> Z -> string   (* errno, capacity of the text *)
}.

Definition LOG_FILENAME_LEN : Z := 1024.
Definition ERR_BUFF_LEN : Z := 1024.

(** ** State and undefined behaviour: the monad *)

Definition M (A : Type) : Type := state -> option (A * state).

Definition ret {A : Type} (a : A) : M A := fun s => Some (a, s).

Definition bind {A B : Type} (m : M A) (k : A -> M B) : M B :=
  fun s => match m s with
           | Some (a, s') => k a s'
           | None => None
           end.

Definition undefined {A : Type} : M A := fun _ => None.

Definition lift {A : Type} (o : option A) : M A :=
  match o with
  | Some a => ret a
  | None => undefined
  end.

Declare Scope log_scope.
Delimit Scope log_scope with log.
Notation "x <- c1 ;; c2" := (bind c1 (fun x => c2))
  (at level 61, c1 at next level, right associativity) : log_scope.
Notation "' pat <- c1 ;; c2" := (bind c1 (fun x => match x with pat => c2 end))
  (at level 61, pat pattern, c1 at next level, right associativity) : log_scope.
Notation "c1 ;; c2" := (bind c1 (fun _ => c2))
  (at level 61, right associativity) : log_scope.
Local Open Scope log_scope.

Definition get_config : M ices_config_t := fun s => Some (ices_config s, s).
Definition get_world : M world := fun s => Some (os s, s).
Definition get_lasterror : M string := fun s => Some (lasterror s, s).

Definition put_world (w : world) : M unit :=
  fun s => Some (tt, mkState (ices_config s) (lasterror s) w).

Definition put_lasterror (e : string) : M unit :=
  fun s => Some (tt, mkState (ices_config s) e (os s)).

(** [ices_config.logfile = f;] *)
Definition set_logfile (f : option FILE) : M unit :=
  fun s =>
    let c := ices_config s in
    Some (tt, mkState (mkConfig (base_directory c) (daemon c) (verbose c) f)
                      (lasterror s) (os s)).

(** ** The libc calls of log.c *)

Definition lookup_fd (t : list (Z * endpoint)) (fd : Z) : endpoint :=
  match find (fun p => fst p =? fd) t with
  | Some p => snd p
  | None => if (0 <=? fd) && (fd <=? 2) then Terminal else NotOpen
  end.

Definition endpoint_of (w : world) (f : FILE) : endpoint :=
  lookup_fd (fdtab w) (fileno f).

Definition log_event (e : event) (w : world) : world :=
  mkWorld (trace w ++ [e])%list (fdtab w) (next_stream w) (outcomes w) (errno w).

Definition attach (fd : Z) (e : endpoint) (w : world) : world :=
  mkWorld (trace w) ((fd, e) :: fdtab w) (next_stream w) (outcomes w) (errno w).

Definition set_errno (e : Z) (w : world) : world :=
  mkWorld (trace w) (fdtab w) (next_stream w) (outcomes w) e.

(** The next fallible call consumes the next outcome; with none left it
    succeeds. *)
Definition next_outcome (w : world) : outcome * world :=
  match outcomes w with
  | [] => (Succeeds, w)
  | o :: rest =>
      (o, mkWorld (trace w) (fdtab w) (next_stream w) rest (errno w))
  end.

Definition fresh_stream (w : world) : FILE * world :=
  (stream (next_stream w),
   mkWorld (trace w) (fdtab w) (S (next_stream w)) (outcomes w) (errno w)).

Definition update_world (f : world -> world) : M unit :=
  fun s => Some (tt, mkState (ices_config s) (lasterror s) (f (os s))).

(** [fopen(path, mode)]: a new stream, or NULL with [errno] set. *)
Definition fopen (path mode : string) : M (option FILE) :=
  w <- get_world ;;
  match next_outcome w with
  | (Succeeds, w1) =>
      let (f, w2) := fresh_stream w1 in
      put_world (log_event (Efopen path mode (Some f))
                   (attach (fileno f) (ToPath path mode) w2)) ;;
      ret (Some f)
  | (Fails e, w1) =>
      put_world (log_event (Efopen path mode None) (set_errno e w1)) ;;
      ret None
  end.

(** [freopen(path, mode, f)]: [f] itself, now attached to [path]; on failure
    NULL, and [f] is closed. *)
Definition freopen (path mode : string) (f : FILE) : M (option FILE) :=
  w <- get_world ;;
  match next_outcome w with
  | (Succeeds, w1) =>
      put_world (log_event (Efreopen path mode f (Some f))
                   (attach (fileno f) (ToPath path mode) w1)) ;;
      ret (Some f)
  | (Fails e, w1) =>
      put_world (log_event (Efreopen path mode f None)
                   (attach (fileno f) NotOpen (set_errno e w1))) ;;
      ret None
  end.

(** [popen(cmd, mode)]: a stream piped to a new process running [cmd]. *)
Definition popen (cmd mode : string) : M (option FILE) :=
  w <- get_world ;;
  match next_outcome w with
  | (Succeeds, w1) =>
      let (f, w2) := fresh_stream w1 in
      put_world (log_event (Epopen cmd mode (Some f))
                   (attach (fileno f) (ToProcess cmd) w2)) ;;
      ret (Some f)
  | (Fails e, w1) =>
      put_world (log_event (Epopen cmd mode None) (set_errno e w1)) ;;
      ret None
  end.

Definition fclose (f : FILE) : M unit :=
  update_world (fun w => log_event (Efclose f) (attach (fileno f) NotOpen w)).

(** [S_ISFIFO]: the descriptor is the end of a pipe. *)
Definition is_fifo (e : endpoint) : bool :=
  match e with
  | ToProcess _ => true
  | _ => false
  end.

(** [pclose(f)]: closes the pipe [f] and returns when its process has ended.
    The call has a meaning only for a stream that [popen] opened and that is
    still open: a stream is gone once it is closed, and a second [pclose] of
    it has no result.  The wait itself is not modelled (the process ends when
    the last descriptor attached to the pipe is closed, and the descriptors
    of other processes are not part of this state). *)
Definition pclose (f : FILE) : M unit :=
  w <- get_world ;;
  if is_fifo (endpoint_of w f)
  then put_world (log_event (Epclose f) (attach (fileno f) NotOpen w))
  else undefined.

(** [dup2(oldfd, newfd)]: [newfd] on success, -1 on failure. *)
Definition dup2 (oldfd newfd : Z) : M Z :=
  w <- get_world ;;
  match next_outcome w with
  | (Succeeds, w1) =>
      put_world (log_event (Edup2 oldfd newfd newfd)
                   (attach newfd (lookup_fd (fdtab w1) oldfd) w1)) ;;
      ret newfd
  | (Fails e, w1) =>
      put_world (log_event (Edup2 oldfd newfd (-1)) (set_errno e w1)) ;;
      ret (-1)
  end.

(** [fstat(fd, &finfo)]: the call's result together with
    [S_ISFIFO(finfo.st_mode)]. *)
Definition fstat (fd : Z) : M (Z * bool) :=
  w <- get_world ;;
  match next_outcome w with
  | (Succeeds, w1) =>
      put_world (log_event (Efstat fd 0) w1) ;;
      ret (0, is_fifo (lookup_fd (fdtab w1) fd))
  | (Fails e, w1) =>
      put_world (log_event (Efstat fd (-1)) (set_errno e w1)) ;;
      ret (-1, false)
  end.

Definition fflush (f : FILE) : M unit :=
  update_world (log_event (Efflush f)).

Definition setlinebuf (f : FILE) : M unit :=
  update_world (log_event (Esetlinebuf f)).

(** ** printf formatting *)

(** The variadic arguments log.c and its callers pass. *)
Inductive arg : Set :=
| AStr (s : string)
| AInt (z : Z).

Definition string_of_Z (z : Z) : string := NilZero.string_of_int (Z.to_int z).

(** The text a printf-family call produces: [%s], [%d] and [%%] are
    converted, every other character is copied.  No text is produced where
    the C standard leaves the call undefined (a conversion without an argument
    of its type) or for a conversion outside this subset. *)
Fixpoint vformat (fmt : string) (args : list arg) : option string :=
  match fmt with
  | EmptyString => Some EmptyString
  | String c rest =>
      if Ascii.eqb c "%" then
        match rest with
        | EmptyString => None
        | String d rest' =>
            if Ascii.eqb d "s" then
              match args with
              | AStr a :: args' => option_map (append a) (vformat rest' args')
              | _ => None
              end
            else if Ascii.eqb d "d" then
              match args with
              | AInt z :: args' =>
                  option_map (append (string_of_Z z)) (vformat rest' args')
              | _ => None
              end
            else if Ascii.eqb d "%" then
              option_map (String "%") (vformat rest' args)
            else None
        end
      else option_map (String c) (vformat rest args)
  end.

(** The line terminator that ends every format of [ices_log_string]'s
    callers. *)
Definition nl : string := String "010"%char EmptyString.

Definition strlen (s : string) : Z := Z.of_nat (String.length s).

(** The first [n] characters of [s]. *)
Definition truncate (n : Z) (s : string) : string :=
  substring 0 (Z.to_nat n) s.

(** A character array: [None] until something has been stored in it. *)
Definition buffer : Set := option string.

(** [snprintf(buf, size, fmt, ...)] / [vsnprintf]: what [buf] holds afterwards,
    at most [size - 1] characters; with [size = 0] nothing is stored.  A
    negative [size], which the conversion to [size_t] turns into a huge one,
    is given no meaning. *)
Definition snprintf (buf : buffer) (size : Z) (fmt : string) (args : list arg)
  : option buffer :=
  match vformat fmt args with
  | Some full =>
      if 0 <? size then Some (Some (truncate (size - 1) full))
      else if size =? 0 then Some buf
      else None
  | None => None
  end.

(** [sprintf(buf, fmt, ...)] / [vsprintf] into an array of [capacity] bytes:
    undefined when the text and its terminator do not fit. *)
Definition sprintf (capacity : Z) (fmt : string) (args : list arg)
  : option buffer :=
  match vformat fmt args with
  | Some full => if strlen full <? capacity then Some (Some full) else None
  | None => None
  end.

(** [strncpy(dst, src, n)] for a terminated [src]. *)
Definition strncpy (src : string) (n : Z) : string := truncate n src.

(** [fprintf(f, fmt, ...)]: the call is recorded with what [f]'s descriptor
    is attached to at that moment.  Through a stream that is already closed
    the destination recorded is [NotOpen]: the text reaches nothing, and what
    else the C library does then is not modelled. *)
Definition fprintf (f : FILE) (fmt : string) (args : list arg) : M unit :=
  text <- lift (vformat fmt args) ;;
  update_world (fun w => log_event (Ewrite f (endpoint_of w f) text) w).

Definition printf (fmt : string) (args : list arg) : M unit :=
  fprintf stdout fmt args.

(** Modelled from the spec: [ices_util_fclose] of util.c, which is not among
    these sources; the "generic close-any-handle helper".  It closes the stream
    it is given.  The stream is passed by value, so the helper cannot reach
    [ices_config.logfile]. *)
Definition ices_util_fclose (f : FILE) : M unit :=
  update_world
    (fun w => log_event (Eices_util_fclose f) (attach (fileno f) NotOpen w)).

(** ** log.c *)

Section Log.

Variable p : platform.

(** [char buff[BUFSIZE]; va_start; vsnprintf or vsprintf; va_end]: the text
    left in [buff], when the call is defined. *)
Definition buff_text (fmt : string) (args : list arg) : option string :=
  match (if HAVE_VSNPRINTF p
         then snprintf None (BUFSIZE p) fmt args
         else sprintf (BUFSIZE p) fmt args) with
  | Some buff => buff
  | None => None
  end.

Definition format_buff (fmt : string) (args : list arg) : M string :=
  lift (buff_text fmt args).

(* Function to log string to both console and file *)
Definition ices_log_string (format str : string) : M unit :=
  if REDIRECT_LOGGING p then
    printf format [AStr str]
  else
    cfg <- get_config ;;
    (match logfile cfg with
     | Some f =>
         fprintf f format [AStr str] ;;
         (if HAVE_SETLINEBUF p then ret tt else fflush f)
     | None => ret tt
     end) ;;
    (* Don't log to console when daemonized *)
    if daemon cfg then ret tt else fprintf stdout format [AStr str].

(* Log only if verbose mode is set. Prepend output with DEBUG:  *)
Definition ices_log_debug (fmt : string) (args : list arg) : M unit :=
  cfg <- get_config ;;
  if negb (verbose cfg) then ret tt
  else
    buff <- format_buff fmt args ;;
    ices_log_string ("DEBUG: %s" ++ nl) buff.

(* Log to console and file *)
Definition ices_log (fmt : string) (args : list arg) : M unit :=
  buff <- format_buff fmt args ;;
  ices_log_string ("%s" ++ nl) buff.

(* Store error information in module memory *)
Definition ices_log_error (fmt : string) (args : list arg) : M unit :=
  buff <- format_buff fmt args ;;
  put_lasterror (strncpy buff (BUFSIZE p)).

Definition ices_log_error_output (fmt : string) (args : list arg) : M unit :=
  buff <- format_buff fmt args ;;
  ices_log_error "%s" [AStr buff] ;;
  ices_log_string ("%s" ++ nl) buff.

(* Get last error from log module *)
Definition ices_log_get_error : M string := get_lasterror.

(** [filename] is the caller's array as it is on entry; the second component
    of the result is the array on return. *)
Definition ices_get_logfile_name (filename : buffer) (len : Z)
  : M (Z * buffer) :=
  cfg <- get_config ;;
  match base_directory cfg with
  | None =>
      ices_log_error "Base directory is invalid" [] ;;
      ret (0, filename)
  | Some dir =>
      if strlen dir >? 1016 then
        ices_log_error "Base directory is invalid" [] ;;
        ret (0, filename)
      else
        filename' <- lift (snprintf filename len "%s/ices.log" [AStr dir]) ;;
        ret (1, filename')
  end.

(* Open the ices logfile, create it if needed *)
Definition ices_log_open_logfile : M Z :=
  ' (r, namespace) <- ices_get_logfile_name None LOG_FILENAME_LEN ;;
  if negb (r =? 1) then ret 0
  else
    name <- lift namespace ;;
    logfp <- fopen name "a" ;;
    match logfp with
    | None =>
        w <- get_world ;;
        ices_log_error "Error while opening %s, error: %s"
          [AStr name; AStr (ices_util_strerror p (errno w) ERR_BUFF_LEN)] ;;
        ret 0
    | Some f =>
        set_logfile (Some f) ;;
        (if HAVE_SETLINEBUF p then setlinebuf f else ret tt) ;;
        ret 1
    end.

(* Close ices' logfile *)
Definition ices_log_close_logfile : M Z :=
  cfg <- get_config ;;
  (match logfile cfg with
   | Some f => ices_util_fclose f
   | None => ret tt
   end) ;;
  ret 1.


(* Cycle the logfile, usually called from the SIGHUP handler *)
Definition ices_log_reopen_logfile : M Z :=
  ices_log_close_logfile ;;
  ices_log_open_logfile.

(* redirect stdout and stderr to a pipe which tee uses to send data to the
   terminal and the logfile *)
Definition ices_setup_output_redirects : M Z :=
  if REDIRECT_LOGGING p then
    let cmdLen := 9 in
    ' (r, namespace) <- ices_get_logfile_name None LOG_FILENAME_LEN ;;
    if negb (r =? 1) then ret 0
    else
      name <- lift namespace ;;
      (* invoke the system command to send output to log file and terminal *)
      cmd <- lift (sprintf (LOG_FILENAME_LEN + cmdLen) "tee -a '%s'"
                     [AStr name]) ;;
      cmd <- lift cmd ;;
      pipe <- popen cmd "w" ;;
      match pipe with
      | None =>
          ices_log "can't create pipe" [] ;;
          ret 0
      | Some pipe =>
          let pno := fileno pipe in
          res1 <- dup2 pno (fileno stdout) ;;
          (if res1 =? -1 then
             pclose pipe ;;
             ices_log "can't redirect stdout to pipe" []
           else ret tt) ;;
          res2 <- dup2 pno (fileno stderr) ;;
          (if res2 =? -1 then
             pclose pipe ;;
             (* revert standard out *)
             freopen "/dev/tty" "w" stdout ;;
             ices_log "can't redirect stderr to pipe" []
           else ret tt) ;;
          ices_log_close_logfile ;;
          set_logfile (Some pipe) ;;
          ret 1
      end
  else ret 1.

(* Close everything, start up with clean slate when run as a daemon *)
Definition ices_log_daemonize : M unit :=
  freopen "/dev/null" "r" stdin ;;
  ' (r, namespace) <- ices_get_logfile_name None LOG_FILENAME_LEN ;;
  if negb (r =? 1) then ret tt
  else
    name <- lift namespace ;;
    fflush stdout ;;
    logfp <- freopen name "a" stdout ;;
    cfg <- get_config ;;
    (match logfile cfg with
     | Some old =>
         ' (st, fifo) <- fstat (fileno old) ;;
         if negb (st =? -1) then
           (if fifo then pclose old else fclose old) ;;
           set_logfile None
         else ret tt
     | None => ret tt
     end) ;;
    match logfp with
    | None =>
        w <- get_world ;;
        ices_log_error "Error while opening %s, error: %s"
          [AStr name; AStr (ices_util_strerror p (errno w) ERR_BUFF_LEN)]
    | Some logfp =>
        (* redirect stderr into stdout so that it also goes to the log file *)
        res <- dup2 (fileno logfp) (fileno stderr) ;;
        (if res =? -1 then ices_log "can't redirect stderr to pipe" []
         else ret tt) ;;
        set_logfile (Some logfp) ;;
        freopen "/dev/null" "w" stdout ;;
        freopen "/dev/null" "w" stderr ;;
        ices_log_reopen_logfile ;;
        ret tt
    end.

(* Initialize the log module, creates log file *)
Definition ices_log_initialize : M unit :=
  cfg <- get_config ;;
  (if daemon cfg then ices_log_daemonize
   else if REDIRECT_LOGGING p then
     ices_setup_output_redirects ;; ret tt
   else
     ok <- ices_log_open_logfile ;;
     if ok =? 0 then
       e <- ices_log_get_error ;;
       ices_log "%s" [AStr e]
     else ret tt) ;;
  ices_log "Logfile opened" [].

(* Shutdown the log module, close the logfile *)
Definition ices_log_shutdown : M unit :=
  ok <- ices_log_close_logfile ;;
  if ok =? 0 then
    e <- ices_log_get_error ;;
    ices_log "%s" [AStr e]
  else ret tt.

End Log.

(** ** Sample configurations

    [direct_build] logs to the file itself, [tee_build] is compiled with
    REDIRECT_LOGGING.  [BUFSIZE] is 1024 in both, the capacity the
    specification gives as an example. *)

Definition strerror_sample (e len : Z) : string :=
  truncate (len - 1) ("errno " ++ string_of_Z e).

Definition direct_build : platform :=
  mkPlatform 1024 false true true strerror_sample.

Definition tee_build : platform :=
  mkPlatform 1024 true true true strerror_sample.

Definition fresh_world (coming : list outcome) : world :=
  mkWorld [] [] 0 coming 0.

(** The state at program start: no sink, no error, nothing called yet. *)
Definition startup (dir : option string) (is_daemon is_verbose : bool)
  (coming : list outcome) : state :=
  mkState (mkConfig dir is_daemon is_verbose None) "" (fresh_world coming).

(** ** Reading a state the way the specification speaks about it *)

(** The kind of the active sink. *)
Definition sink_kind (s : state) : kind :=
  match logfile (ices_config s) with
  | None => Closed
  | Some f => if is_fifo (endpoint_of (os s) f) then PipeTee else RegularFile
  end.

(** [w] after the calls [evs], everything but the trace untouched. *)
Definition add_events (evs : list event) (w : world) : world :=
  mkWorld (trace w ++ evs)%list (fdtab w) (next_stream w) (outcomes w) (errno w).

Definition with_world (s : state) (w : world) : state :=
  mkState (ices_config s) (lasterror s) w.

(** The text of a write, nothing for the other calls. *)
Definition written (e : event) : option string :=
  match e with
  | Ewrite _ _ text => Some text
  | _ => None
  end.


(** The calls [ices_log_string] makes for the line [text], in order. *)
Definition dispatched (p : platform) (s : state) (text : string) : list event :=
  if REDIRECT_LOGGING p then
    [Ewrite stdout (endpoint_of (os s) stdout) text]
  else
    ((match logfile (ices_config s) with
      | Some f =>
          Ewrite f (endpoint_of (os s) f) text
            :: (if HAVE_SETLINEBUF p then [] else [Efflush f])
      | None => []
      end)
     ++ (if daemon (ices_config s) then []
         else [Ewrite stdout (endpoint_of (os s) stdout) text]))%list.

(** A directory name of [n] characters. *)
Fixpoint long_name (n : nat) : string :=
  match n with
  | O => EmptyString
  | S k => String "d" (long_name k)
  end.

(** What a call returned, and the state it left. *)
Definition result_of {A : Type} (r : option (A * state)) : option A :=
  option_map fst r.

Definition state_after {A : Type} (r : option (A * state)) : option state :=
  option_map snd r.



(** A state that holds an error: verbose, in the foreground, no sink. *)
Definition failed_sample : state :=
  mkState (mkConfig None false true None) "Base directory is invalid"
    (fresh_world []).

(** The message [ices_get_logfile_name] records. *)
Definition invalid_message : string := "Base directory is invalid".

(** The test of [ices_get_logfile_name]: the base directory is absent (a NULL
    pointer) or longer than 1016 characters. *)
Definition invalid_base_directory (s : state) : Prop :=
  match base_directory (ices_config s) with
  | None => True
  | Some dir => 1016 < strlen dir
  end.

(** The next fallible call of libc will succeed. *)
Definition next_succeeds (w : world) : bool :=
  match fst (next_outcome w) with
  | Succeeds => true
  | Fails _ => false
  end.

(** The state of a direct build after [ices_log_open_logfile] has succeeded
    at startup. *)
Definition opened_sample : state :=
  mkState (mkConfig (Some "/tmp/icestest") false false (Some (stream 0))) ""
    (mkWorld [Efopen "/tmp/icestest/ices.log" "a" (Some (stream 0));
              Esetlinebuf (stream 0)]
             [(3, ToPath "/tmp/icestest/ices.log" "a")] 1 [] 0).

(** The state of a tee build after [ices_setup_output_redirects] has
    succeeded at startup: the sink is the pipe to tee, and standard output
    and standard error are attached to it. *)
Definition piped_sample : state :=
  mkState (mkConfig (Some "/tmp/icestest") false false (Some (stream 0))) ""
    (mkWorld [Epopen "tee -a '/tmp/icestest/ices.log'" "w" (Some (stream 0));
              Edup2 3 1 1; Edup2 3 2 2]
             [(2, ToProcess "tee -a '/tmp/icestest/ices.log'");
              (1, ToProcess "tee -a '/tmp/icestest/ices.log'");
              (3, ToProcess "tee -a '/tmp/icestest/ices.log'")] 1 [] 0).

(** The stream a write goes through, nothing for the other calls. *)
Definition written_to (e : event) : option FILE :=
  match e with
  | Ewrite f _ _ => Some f
  | _ => None
  end.

(** The world after a successful [fopen(path, mode)]. *)
Definition fopened (path mode : string) (w : world) : world :=
  mkWorld (trace w ++ [Efopen path mode (Some (stream (next_stream w)))])%list
          ((fileno (stream (next_stream w)), ToPath path mode) :: fdtab w)
          (S (next_stream w)) (tl (outcomes w)) (errno w).

(** The world after an [fopen(path, mode)] that failed with [e]. *)
Definition fopen_failed (path mode : string) (e : Z) (w : world) : world :=
  mkWorld (trace w ++ [Efopen path mode None])%list (fdtab w) (next_stream w)
          (tl (outcomes w)) e.

(** The state [ices_log_open_logfile] leaves when it has opened [name]. *)
Definition opened_state (p : platform) (name : string) (s : state) : state :=
  let f := stream (next_stream (os s)) in
  mkState
    (mkConfig (base_directory (ices_config s)) (daemon (ices_config s))
       (verbose (ices_config s)) (Some f))
    (lasterror s)
    (if HAVE_SETLINEBUF p
     then log_event (Esetlinebuf f) (fopened name "a" (os s))
     else fopened name "a" (os s)).

(** The world after [ices_util_fclose(f)]. *)
Definition util_fclosed (f : FILE) (w : world) : world :=
  log_event (Eices_util_fclose f) (attach (fileno f) NotOpen w).

(** [s] with [f] as the sink, the rest of [ices_config] and the last error
    kept, and [w] as the world. *)
Definition with_sink (s : state) (f : FILE) (w : world) : state :=
  mkState
    (mkConfig (base_directory (ices_config s)) (daemon (ices_config s))
       (verbose (ices_config s)) (Some f))
    (lasterror s) w.

(** [s] with no sink, the rest of [ices_config] and the last error kept, and
    [w] as the world. *)
Definition with_no_sink (s : state) (w : world) : state :=
  mkState
    (mkConfig (base_directory (ices_config s)) (daemon (ices_config s))
       (verbose (ices_config s)) None)
    (lasterror s) w.

(** The world after a successful [popen(cmd, mode)]. *)
Definition popened (cmd mode : string) (w : world) : world :=
  mkWorld (trace w ++ [Epopen cmd mode (Some (stream (next_stream w)))])%list
          ((fileno (stream (next_stream w)), ToProcess cmd) :: fdtab w)
          (S (next_stream w)) (tl (outcomes w)) (errno w).

(** The world after a [popen(cmd, mode)] that failed with [e]. *)
Definition popen_failed (cmd mode : string) (e : Z) (w : world) : world :=
  mkWorld (trace w ++ [Epopen cmd mode None])%list (fdtab w) (next_stream w)
          (tl (outcomes w)) e.

(** The calls [ices_log_daemonize] makes to close the previous sink, the
    [prior]-th stream, when there is one. *)
Definition closing_calls (w : world) (prior : option nat) : list event :=
  match prior with
  | None => []
  | Some k =>
      [Efstat (fileno (stream k)) 0;
       if is_fifo (endpoint_of w (stream k))
       then Epclose (stream k) else Efclose (stream k)]
  end.

(** The world [ices_log_daemonize] leaves when every call succeeds: the log
    file [path], the previous sink [prior], the world [w] it started in. *)
Definition daemonized_world (p : platform) (path : string)
  (prior : option nat) (w : world) : world :=
  mkWorld
    (trace w
     ++ [Efreopen "/dev/null" "r" stdin (Some stdin);
         Efflush stdout;
         Efreopen path "a" stdout (Some stdout)]
     ++ closing_calls w prior
     ++ [Edup2 1 2 2;
         Efreopen "/dev/null" "w" stdout (Some stdout);
         Efreopen "/dev/null" "w" stderr (Some stderr);
         Eices_util_fclose stdout;
         Efopen path "a" (Some (stream (next_stream w)))]
     ++ (if HAVE_SETLINEBUF p
         then [Esetlinebuf (stream (next_stream w))] else []))%list
    ((fileno (stream (next_stream w)), ToPath path "a")
     :: (1, NotOpen)
     :: (2, ToPath "/dev/null" "w")
     :: (1, ToPath "/dev/null" "w")
     :: (2, ToPath path "a")
     :: (match prior with
         | Some k => [(fileno (stream k), NotOpen)]
         | None => []
         end
         ++ (1, ToPath path "a")
         :: (0, ToPath "/dev/null" "r")
         :: fdtab w))%list
    (S (next_stream w)) [] (errno w).

(** ** The sink manager as the specification words it

    The reference for [reopen()]: each operation below is written from the
    specification's sentence, quoted above it, over the same state and the
    same libc calls as log.c. *)

(** "close(): if kind = RegularFile, closes the file handle through the
    generic close helper; if kind = PipeTee, waits on and closes the
    subprocess pipe.  Sets kind = Closed and handle = None.  Idempotent:
    calling close on an already-closed sink is a no-op returning success." *)
Definition spec_close : M Z :=
  cfg <- get_config ;;
  match logfile cfg with
  | None => ret 1
  | Some f =>
      w <- get_world ;;
      (if is_fifo (endpoint_of w f) then pclose f else ices_util_fclose f) ;;
      set_logfile None ;;
      ret 1
  end.

(** "openFile(): builds the log path from base_directory; fails (returns
    false, records error via ErrorState) if base_directory is missing or
    exceeds the length bound, or if the underlying open call fails (captures
    the OS error text).  On success, opens the file in append mode, sets
    line-buffering if the platform supports it, and stores the handle as the
    active sink."  The path is "base_directory + /ices.log", the bound 1016
    characters, and a base directory is "required non-empty"; the
    specification does not word the message of a failed open, which is taken
    from log.c. *)
Definition spec_openFile (p : platform) : M Z :=
  cfg <- get_config ;;
  match base_directory cfg with
  | None => ices_log_error p "Base directory is invalid" [] ;; ret 0
  | Some dir =>
      if (strlen dir =? 0) || (1016 <? strlen dir) then
        ices_log_error p "Base directory is invalid" [] ;; ret 0
      else
        opened <- fopen (dir ++ "/ices.log") "a" ;;
        match opened with
        | None =>
            w <- get_world ;;
            ices_log_error p "Error while opening %s, error: %s"
              [AStr (dir ++ "/ices.log");
               AStr (ices_util_strerror p (errno w) ERR_BUFF_LEN)] ;;
            ret 0
        | Some f =>
            set_logfile (Some f) ;;
            (if HAVE_SETLINEBUF p then setlinebuf f else ret tt) ;;
            ret 1
        end
  end.

(** "reopen(): equivalent to close() followed by openFile()". *)
Definition spec_reopen (p : platform) : M Z :=
  spec_close ;;
  spec_openFile p.

(** ** Further readings of a result and further sample states *)

(** A call of a function that returns 1 for success and 0 for failure has
    reported a failure: it has returned, and it has returned 0. *)
Definition reports_failure (r : option (Z * state)) : bool :=
  match r with
  | Some (res, _) => res =? 0
  | None => false
  end.

(** The descriptor is open on a file. *)
Definition is_open_file (e : endpoint) : bool :=
  match e with
  | ToPath _ _ => true
  | _ => false
  end.


(** A direct build's log file open as the sink, with the coming [fopen] set
    to fail with EACCES. *)
Definition rotation_failing_sample : state :=
  mkState (mkConfig (Some "/tmp/icestest") false false (Some (stream 0))) ""
    (mkWorld [] [(3, ToPath "/tmp/icestest/ices.log" "a")] 1 [Fails 13] 0).

(** * Properties *)

(** ** Strings and formatting *)

Lemma append_empty_r (s : string) : s ++ "" = s.
Proof.
  induction s as [| c s IH]; simpl; [reflexivity | now rewrite IH].
Qed.

Lemma substring_whole (s : string) :
  forall n : nat, (String.length s <= n)%nat -> substring 0 n s = s.
Proof.
  induction s as [| c s IH]; intros [| n] Hn; simpl in *;
    try reflexivity; try lia.
  f_equal. apply IH. lia.
Qed.

Lemma substring_length_le (s : string) :
  forall n : nat, (String.length (substring 0 n s) <= n)%nat.
Proof.
  induction s as [| c s IH]; intros [| n]; simpl; try lia.
  specialize (IH n). lia.
Qed.

Lemma truncate_fits (n : Z) (s : string) : strlen s <= n -> truncate n s = s.
Proof.
  unfold strlen, truncate. intros H. apply substring_whole. lia.
Qed.

Lemma strlen_truncate (n : Z) (s : string) :
  0 <= n -> strlen (truncate n s) <= n.
Proof.
  unfold strlen, truncate. intros H.
  pose proof (substring_length_le s (Z.to_nat n)). lia.
Qed.

Lemma strlen_append (a b : string) : strlen (a ++ b) = strlen a + strlen b.
Proof.
  unfold strlen. induction a as [| c a IH]; simpl String.length; lia.
Qed.

Lemma vformat_echo (m : string) : vformat "%s" [AStr m] = Some m.
Proof. simpl. now rewrite append_empty_r. Qed.

Lemma vformat_line (m : string) :
  vformat ("%s" ++ nl) [AStr m] = Some (m ++ nl).
Proof. reflexivity. Qed.

Lemma vformat_debug_line (m : string) :
  vformat ("DEBUG: %s" ++ nl) [AStr m] = Some ("DEBUG: " ++ m ++ nl).
Proof. reflexivity. Qed.

Lemma vformat_logfile_name (dir : string) :
  vformat "%s/ices.log" [AStr dir] = Some (dir ++ "/ices.log").
Proof. reflexivity. Qed.

(** Whatever is left in [buff] is shorter than [BUFSIZE]. *)
Lemma buff_text_fits (p : platform) (fmt : string) (args : list arg)
  (m : string) :
  buff_text p fmt args = Some m -> strlen m < BUFSIZE p.
Proof.
  unfold buff_text, snprintf, sprintf.
  destruct (HAVE_VSNPRINTF p), (vformat fmt args) as [full |];
    try discriminate.
  - destruct (0 <? BUFSIZE p) eqn:Hpos;
      [| destruct (BUFSIZE p =? 0); discriminate].
    intros [= <-]. apply Z.ltb_lt in Hpos.
    pose proof (strlen_truncate (BUFSIZE p - 1) full). lia.
  - destruct (strlen full <? BUFSIZE p) eqn:Hlt; [| discriminate].
    intros [= <-]. now apply Z.ltb_lt.
Qed.

(** A text that fits is left in [buff] whole, by either formatter. *)
Lemma buff_text_whole (p : platform) (fmt : string) (args : list arg)
  (full : string) :
  vformat fmt args = Some full -> strlen full < BUFSIZE p ->
  buff_text p fmt args = Some full.
Proof.
  intros Hf Hlt. unfold buff_text, snprintf, sprintf. rewrite Hf.
  assert (Hpos : (0 <? BUFSIZE p) = true).
  { apply Z.ltb_lt. unfold strlen in Hlt. lia. }
  destruct (HAVE_VSNPRINTF p).
  - rewrite Hpos, truncate_fits; [reflexivity | lia].
  - apply Z.ltb_lt in Hlt. now rewrite Hlt.
Qed.

(** ** Running the computations *)

Lemma bind_run {A B : Type} (m : M A) (k : A -> M B) (s s' : state) (a : A) :
  m s = Some (a, s') -> bind m k s = k a s'.
Proof. intros H. unfold bind. now rewrite H. Qed.

(** Run the first computation of a sequence with the equation [H] that gives
    its result. *)
Ltac run_with H := rewrite (bind_run _ _ _ _ _ H).

Lemma bind_undefined {A B : Type} (m : M A) (k : A -> M B) (s : state) :
  m s = None -> bind m k s = None.
Proof. intros H. unfold bind. now rewrite H. Qed.

Lemma bind_assoc {A B C : Type} (m : M A) (k1 : A -> M B) (k2 : B -> M C)
  (s : state) :
  bind (bind m k1) k2 s = bind m (fun a => bind (k1 a) k2) s.
Proof. unfold bind. now destruct (m s) as [[a s'] |]. Qed.

(** Run the first computation of a sequence with an equation that is stated
    at the state the sequence runs in. *)
Ltac at_state tac :=
  match goal with
  | |- bind _ _ ?st = _ => tac st
  end.

(** Put a state built by several steps back into one record. *)
Ltac tidy :=
  unfold with_world, with_sink, log_event, attach, util_fclosed;
  cbn [os ices_config lasterror trace fdtab next_stream outcomes errno
       base_directory daemon verbose logfile option_map].

Lemma format_buff_run (p : platform) (fmt : string) (args : list arg)
  (m : string) (s : state) :
  buff_text p fmt args = Some m -> format_buff p fmt args s = Some (m, s).
Proof. intros H. unfold format_buff. now rewrite H. Qed.


Lemma with_world_same (s : state) : with_world s (os s) = s.
Proof. now destruct s. Qed.

(** [ices_log_string] makes exactly the calls of [dispatched] and touches
    nothing but the trace. *)
Lemma ices_log_string_run (p : platform) (format str text : string)
  (s : state) :
  vformat format [AStr str] = Some text ->
  ices_log_string p format str s
  = Some (tt, with_world s (add_events (dispatched p s text) (os s))).
Proof.
  intros Hf.
  destruct s as [[dir dm vb lf] err w].
  unfold ices_log_string, dispatched, printf, fprintf, with_world, add_events.
  destruct (REDIRECT_LOGGING p); simpl.
  - unfold bind, lift. rewrite Hf. reflexivity.
  - destruct lf as [f |], (HAVE_SETLINEBUF p), dm;
      unfold bind, lift, get_config; simpl; rewrite ?Hf; simpl;
      unfold update_world, fflush, log_event, ret; simpl;
      rewrite <- ?app_assoc, ?app_nil_r; try reflexivity.
    all: now destruct w.
Qed.



(** In a tee build the line is written to standard output. *)
Lemma dispatched_to_stdout (p : platform) (s : state) (text : string) :
  REDIRECT_LOGGING p = true ->
  dispatched p s text = [Ewrite stdout (endpoint_of (os s) stdout) text].
Proof. intros Hr. unfold dispatched. now rewrite Hr. Qed.

Lemma ices_log_run (p : platform) (fmt : string) (args : list arg)
  (m : string) (s : state) :
  buff_text p fmt args = Some m ->
  ices_log p fmt args s
  = Some (tt, with_world s (add_events (dispatched p s (m ++ nl)) (os s))).
Proof.
  intros Hm. unfold ices_log.
  run_with (format_buff_run p fmt args m s Hm).
  apply ices_log_string_run, vformat_line.
Qed.

Lemma ices_log_undefined (p : platform) (fmt : string) (args : list arg)
  (s : state) :
  buff_text p fmt args = None -> ices_log p fmt args s = None.
Proof.
  intros Hm. unfold ices_log. apply bind_undefined.
  unfold format_buff. now rewrite Hm.
Qed.

Lemma ices_log_debug_quiet (p : platform) (fmt : string) (args : list arg)
  (s : state) :
  verbose (ices_config s) = false -> ices_log_debug p fmt args s = Some (tt, s).
Proof.
  intros Hv. unfold ices_log_debug, bind, get_config. now rewrite Hv.
Qed.

Lemma ices_log_debug_run (p : platform) (fmt : string) (args : list arg)
  (m : string) (s : state) :
  verbose (ices_config s) = true ->
  buff_text p fmt args = Some m ->
  ices_log_debug p fmt args s
  = Some (tt, with_world s
                (add_events (dispatched p s ("DEBUG: " ++ m ++ nl)) (os s))).
Proof.
  intros Hv Hm. unfold ices_log_debug.
  rewrite (bind_run get_config _ s s (ices_config s) eq_refl), Hv.
  cbn [negb].
  run_with (format_buff_run p fmt args m s Hm).
  apply ices_log_string_run, vformat_debug_line.
Qed.

Lemma ices_log_debug_undefined (p : platform) (fmt : string)
  (args : list arg) (s : state) :
  verbose (ices_config s) = true ->
  buff_text p fmt args = None -> ices_log_debug p fmt args s = None.
Proof.
  intros Hv Hm. unfold ices_log_debug.
  rewrite (bind_run get_config _ s s (ices_config s) eq_refl), Hv.
  cbn [negb]. apply bind_undefined. unfold format_buff. now rewrite Hm.
Qed.

(** [ices_log_error] stores the text of [buff] whole: it is shorter than
    [BUFSIZE], so [strncpy] cuts nothing. *)
Lemma ices_log_error_run (p : platform) (fmt : string) (args : list arg)
  (m : string) (s : state) :
  buff_text p fmt args = Some m ->
  ices_log_error p fmt args s = Some (tt, mkState (ices_config s) m (os s)).
Proof.
  intros Hm. unfold ices_log_error.
  run_with (format_buff_run p fmt args m s Hm).
  unfold put_lasterror, strncpy.
  pose proof (buff_text_fits p fmt args m Hm).
  rewrite truncate_fits; [reflexivity | lia].
Qed.

(** ** The writer *)






(** C9: [ices_log] and [ices_log_debug] never touch the last error: whenever
    either returns, [ices_log_get_error] gives afterwards what it gave before;
    and both do return for every format the buffer can take. *)
Theorem logging_preserves_lasterror :
  forall (p : platform) (fmt : string) (args : list arg) (s : state),
    (forall s' : state,
        ices_log p fmt args s = Some (tt, s') ->
        result_of (ices_log_get_error s') = result_of (ices_log_get_error s)) /\
    (forall s' : state,
        ices_log_debug p fmt args s = Some (tt, s') ->
        result_of (ices_log_get_error s') = result_of (ices_log_get_error s)) /\
    (forall m : string,
        buff_text p fmt args = Some m ->
        (exists s', ices_log p fmt args s = Some (tt, s')) /\
        (exists s', ices_log_debug p fmt args s = Some (tt, s'))).
Proof.
  intros p fmt args s. split; [| split].
  - intros s'. destruct (buff_text p fmt args) as [m |] eqn:Hm.
    + rewrite (ices_log_run p fmt args m s Hm). intros [= <-]. reflexivity.
    + now rewrite (ices_log_undefined p fmt args s Hm).
  - intros s'. destruct (verbose (ices_config s)) eqn:Hv.
    + destruct (buff_text p fmt args) as [m |] eqn:Hm.
      * rewrite (ices_log_debug_run p fmt args m s Hv Hm).
        intros [= <-]. reflexivity.
      * now rewrite (ices_log_debug_undefined p fmt args s Hv Hm).
    + rewrite (ices_log_debug_quiet p fmt args s Hv).
      intros [= <-]. reflexivity.
  - intros m Hm. split.
    + eexists. apply (ices_log_run p fmt args m s Hm).
    + destruct (verbose (ices_config s)) eqn:Hv.
      * eexists. apply (ices_log_debug_run p fmt args m s Hv Hm).
      * eexists. apply (ices_log_debug_quiet p fmt args s Hv).
Qed.

Lemma logging_preserves_lasterror_witness :
  exists s1 s2 : state,
    ices_log direct_build "%s" [AStr "Logfile opened"] failed_sample
    = Some (tt, s1) /\
    ices_log_debug direct_build "%s" [AStr "Logfile opened"] failed_sample
    = Some (tt, s2) /\
    result_of (ices_log_get_error s1) = Some "Base directory is invalid" /\
    result_of (ices_log_get_error s2) = Some "Base directory is invalid".
Proof.
  pose proof (logging_preserves_lasterror direct_build "%s"
                [AStr "Logfile opened"] failed_sample) as (Hlog & Hdbg & Hret).
  destruct (Hret "Logfile opened" eq_refl) as ((s1 & H1) & (s2 & H2)).
  exists s1, s2. repeat split; try assumption.
  - now rewrite (Hlog s1 H1).
  - now rewrite (Hdbg s2 H2).
Defined.

(** ** The log file's name *)

Lemma ices_get_logfile_name_invalid (p : platform) (filename : buffer)
  (len : Z) (s : state) :
  strlen invalid_message < BUFSIZE p ->
  invalid_base_directory s ->
  ices_get_logfile_name p filename len s
  = Some ((0, filename), mkState (ices_config s) invalid_message (os s)).
Proof.
  intros Hfit Hbad.
  assert (He : ices_log_error p invalid_message [] s
               = Some (tt, mkState (ices_config s) invalid_message (os s))).
  { apply ices_log_error_run, buff_text_whole; [reflexivity | exact Hfit]. }
  unfold ices_get_logfile_name, invalid_base_directory in *.
  rewrite (bind_run get_config _ s s (ices_config s) eq_refl).
  destruct (base_directory (ices_config s)) as [dir |].
  - apply Z.gtb_lt in Hbad. rewrite Hbad.
    now run_with He.
  - now run_with He.
Qed.

(** With a directory the test lets through, the name is the directory and
    the suffix cut to [len - 1] characters; no other part of the state moves. *)
Lemma ices_get_logfile_name_valid (p : platform) (filename : buffer)
  (len : Z) (s : state) (dir : string) :
  base_directory (ices_config s) = Some dir ->
  strlen dir <= 1016 ->
  0 < len ->
  ices_get_logfile_name p filename len s
  = Some ((1, Some (truncate (len - 1) (dir ++ "/ices.log"))), s).
Proof.
  intros Hdir Hlen Hpos. unfold ices_get_logfile_name.
  rewrite (bind_run get_config _ s s (ices_config s) eq_refl), Hdir.
  assert (Hgt : (strlen dir >? 1016) = false).
  { apply not_true_is_false. intros H. apply Z.gtb_lt in H. lia. }
  rewrite Hgt. unfold snprintf. rewrite vformat_logfile_name.
  apply Z.ltb_lt in Hpos. now rewrite Hpos.
Qed.

(** Up to 1014 characters the array of [LOG_FILENAME_LEN] bytes takes the
    whole name. *)
Lemma ices_get_logfile_name_exact (p : platform) (filename : buffer)
  (s : state) (dir : string) :
  base_directory (ices_config s) = Some dir ->
  strlen dir <= 1014 ->
  ices_get_logfile_name p filename LOG_FILENAME_LEN s
  = Some ((1, Some (dir ++ "/ices.log")), s).
Proof.
  intros Hdir Hlen.
  rewrite (ices_get_logfile_name_valid p filename _ s dir Hdir);
    [| lia | reflexivity].
  rewrite truncate_fits; [reflexivity |].
  rewrite strlen_append. change (strlen "/ices.log") with 9.
  unfold LOG_FILENAME_LEN. lia.
Qed.

(** C10: with a base directory that is absent or longer than 1016 characters
    (and a [BUFSIZE] that holds the error message) [ices_get_logfile_name]
    returns 0 and the caller's array is on return what it was on entry,
    whatever it held. *)
Theorem logfile_name_error_leaves_buffer :
  forall (p : platform) (filename : buffer) (len : Z) (s : state),
    strlen invalid_message < BUFSIZE p ->
    invalid_base_directory s ->
    exists s' : state,
      ices_get_logfile_name p filename len s = Some ((0, filename), s').
Proof.
  intros p filename len s Hfit Hbad. eexists.
  now apply ices_get_logfile_name_invalid.
Qed.

Lemma logfile_name_error_leaves_buffer_witness :
  exists s' : state,
    ices_get_logfile_name direct_build (Some "left over") LOG_FILENAME_LEN
      (startup None false false [])
    = Some ((0, Some "left over"), s').
Proof.
  apply (logfile_name_error_leaves_buffer direct_build (Some "left over")
           LOG_FILENAME_LEN (startup None false false [])).
  - reflexivity.
  - exact I.
Defined.

Lemma ices_log_open_logfile_invalid (p : platform) (s : state) :
  strlen invalid_message < BUFSIZE p ->
  invalid_base_directory s ->
  ices_log_open_logfile p s
  = Some (0, mkState (ices_config s) invalid_message (os s)).
Proof.
  intros Hfit Hbad. unfold ices_log_open_logfile.
  now rewrite (bind_run _ _ _ _ _
                 (ices_get_logfile_name_invalid p None _ s Hfit Hbad)).
Qed.

Lemma ices_setup_output_redirects_invalid (p : platform) (s : state) :
  REDIRECT_LOGGING p = true ->
  strlen invalid_message < BUFSIZE p ->
  invalid_base_directory s ->
  ices_setup_output_redirects p s
  = Some (0, mkState (ices_config s) invalid_message (os s)).
Proof.
  intros Hr Hfit Hbad. unfold ices_setup_output_redirects. rewrite Hr.
  now rewrite (bind_run _ _ _ _ _
                 (ices_get_logfile_name_invalid p None _ s Hfit Hbad)).
Qed.

(** Without REDIRECT_LOGGING the function has no body. *)
Lemma ices_setup_output_redirects_direct (p : platform) (s : state) :
  REDIRECT_LOGGING p = false -> ices_setup_output_redirects p s = Some (1, s).
Proof.
  intros Hr. unfold ices_setup_output_redirects. now rewrite Hr.
Qed.

(** C1, as the code has it: with a base directory that is absent (a NULL
    pointer) or longer than 1016 characters, and a [BUFSIZE] that holds the
    message, [ices_log_open_logfile] returns 0, and so does
    [ices_setup_output_redirects] in a build with REDIRECT_LOGGING; neither
    makes a call to the operating system, and [ices_log_get_error] returns
    "Base directory is invalid" afterwards. *)
Theorem invalid_base_directory_fails :
  forall (p : platform) (s : state),
    strlen invalid_message < BUFSIZE p ->
    invalid_base_directory s ->
    exists s' : state,
      ices_log_open_logfile p s = Some (0, s') /\
      (REDIRECT_LOGGING p = true ->
       ices_setup_output_redirects p s = Some (0, s')) /\
      result_of (ices_log_get_error s') = Some "Base directory is invalid" /\
      os s' = os s.
Proof.
  intros p s Hfit Hbad.
  exists (mkState (ices_config s) invalid_message (os s)).
  split; [now apply ices_log_open_logfile_invalid |].
  split; [| split; reflexivity].
  intros Hr. now apply ices_setup_output_redirects_invalid.
Qed.

Lemma invalid_base_directory_fails_witness :
  exists s' : state,
    ices_log_open_logfile tee_build
      (startup (Some (long_name 1017)) false false []) = Some (0, s') /\
    ices_setup_output_redirects tee_build
      (startup (Some (long_name 1017)) false false []) = Some (0, s') /\
    result_of (ices_log_get_error s') = Some "Base directory is invalid".
Proof.
  destruct (invalid_base_directory_fails tee_build
              (startup (Some (long_name 1017)) false false []))
    as (s' & Hopen & Htee & Herr & _).
  - reflexivity.
  - vm_compute. reflexivity.
  - exists s'. split; [exact Hopen |]. split; [| exact Herr].
    apply Htee. reflexivity.
Defined.

(** C1 as stated fails for the empty string: it is not a NULL pointer and not
    longer than 1016 characters, so the log file "/ices.log" is opened, the
    call returns 1 and the last error stays empty. *)
Lemma empty_base_directory_is_accepted :
  result_of (ices_log_open_logfile direct_build
               (startup (Some "") false false [])) = Some 1 /\
  option_map lasterror
    (state_after (ices_log_open_logfile direct_build
                    (startup (Some "") false false []))) = Some "" /\
  option_map (fun s => trace (os s))
    (state_after (ices_log_open_logfile direct_build
                    (startup (Some "") false false [])))
  = Some [Efopen "/ices.log" "a" (Some (stream 0));
          Esetlinebuf (stream 0)].
Proof.
  repeat split; vm_compute; reflexivity.
Qed.

(** Once the name is built and [fopen] succeeds, the new stream becomes the
    sink; the first call made is the [fopen] of that name in append mode. *)
Lemma ices_log_open_logfile_opens (p : platform) (s : state) (name : string) :
  ices_get_logfile_name p None LOG_FILENAME_LEN s = Some ((1, Some name), s) ->
  next_succeeds (os s) = true ->
  exists s' : state,
    ices_log_open_logfile p s = Some (1, s') /\
    logfile (ices_config s') = Some (stream (next_stream (os s))) /\
    lasterror s' = lasterror s /\
    exists rest : list event,
      trace (os s')
      = (trace (os s)
         ++ Efopen name "a" (Some (stream (next_stream (os s)))) :: rest)%list.
Proof.
  intros Hname Hnext. unfold ices_log_open_logfile.
  run_with Hname. clear Hname.
  destruct s as [[dir dm vb lf] err [tr fds ns coming en]].
  unfold next_succeeds, next_outcome in Hnext. simpl in Hnext.
  cbv [negb Z.eqb Pos.eqb lift bind ret fopen get_world next_outcome].
  cbn [os outcomes].
  destruct coming as [| [| e] coming]; try discriminate;
    destruct (HAVE_SETLINEBUF p); cbn;
    eexists; (split; [reflexivity |]); cbn;
    (split; [reflexivity |]); (split; [reflexivity |]);
    rewrite <- ?app_assoc; cbn; eexists; reflexivity.
Qed.

(** C6 at a directory of 1016 characters, the longest the test lets through:
    the array of [LOG_FILENAME_LEN] bytes holds 1023 characters, so
    [snprintf] cuts the last two of the 1025, and the file opened in append
    mode is named by the directory followed by "/ices.l". *)
Theorem logfile_name_cut_at_1016 :
  forall p : platform,
    strlen (long_name 1016) = 1016 /\
    result_of (ices_get_logfile_name p None LOG_FILENAME_LEN
                 (startup (Some (long_name 1016)) false false []))
    = Some (1, Some (long_name 1016 ++ "/ices.l")) /\
    (exists s' : state,
        ices_log_open_logfile p
          (startup (Some (long_name 1016)) false false []) = Some (1, s') /\
        hd_error (trace (os s'))
        = Some (Efopen (long_name 1016 ++ "/ices.l") "a" (Some (stream 0)))) /\
    long_name 1016 ++ "/ices.l" <> long_name 1016 ++ "/ices.log".
Proof.
  intros p.
  assert (Hcut : truncate (LOG_FILENAME_LEN - 1) (long_name 1016 ++ "/ices.log")
                 = long_name 1016 ++ "/ices.l").
  { vm_compute. reflexivity. }
  assert (Hname : ices_get_logfile_name p None LOG_FILENAME_LEN
                    (startup (Some (long_name 1016)) false false [])
                  = Some ((1, Some (long_name 1016 ++ "/ices.l")),
                          startup (Some (long_name 1016)) false false [])).
  { rewrite (ices_get_logfile_name_valid p None LOG_FILENAME_LEN
               (startup (Some (long_name 1016)) false false [])
               (long_name 1016) eq_refl);
      [now rewrite Hcut | vm_compute; discriminate | reflexivity]. }
  split; [vm_compute; reflexivity |].
  split; [now rewrite Hname |].
  split.
  - destruct (ices_log_open_logfile_opens p _ _ Hname eq_refl)
      as (s' & Hopen & _ & _ & rest & Htrace).
    exists s'. split; [exact Hopen |]. now rewrite Htrace.
  - intros H. apply (f_equal String.length) in H. vm_compute in H.
    discriminate.
Qed.

(** ** Closing and reopening the sink *)

(** [ices_log_close_logfile] hands the sink, if there is one, to
    [ices_util_fclose], and returns 1; [ices_config] is not written. *)
Lemma ices_log_close_logfile_run (s : state) :
  ices_log_close_logfile s
  = Some (1, with_world s
               (match logfile (ices_config s) with
                | Some f => log_event (Eices_util_fclose f)
                              (attach (fileno f) NotOpen (os s))
                | None => os s
                end)).
Proof.
  unfold ices_log_close_logfile, bind, get_config, ices_util_fclose,
    update_world, ret, with_world.
  destruct (logfile (ices_config s)); [reflexivity |].
  now destruct s.
Qed.

Lemma sample_states_are_reached :
  ices_log_open_logfile direct_build
    (startup (Some "/tmp/icestest") false false []) = Some (1, opened_sample) /\
  ices_setup_output_redirects tee_build
    (startup (Some "/tmp/icestest") false false []) = Some (1, piped_sample).
Proof. split; vm_compute; reflexivity. Qed.

(** C2 at a pipe sink: after [ices_setup_output_redirects] has installed the
    pipe to tee, [ices_log_close_logfile] (and [ices_log_shutdown], which
    calls it) closes it with [ices_util_fclose], the helper used for a plain
    file; [pclose] is not called, and the close made for a file sink is the
    very same call. *)
Theorem pipe_sink_closed_by_file_helper :
  ices_setup_output_redirects tee_build
    (startup (Some "/tmp/icestest") false false []) = Some (1, piped_sample) /\
  sink_kind piped_sample = PipeTee /\
  sink_kind opened_sample = RegularFile /\
  (exists closed : state,
      ices_log_close_logfile piped_sample = Some (1, closed) /\
      trace (os closed)
      = (trace (os piped_sample) ++ [Eices_util_fclose (stream 0)])%list /\
      ~ In (Epclose (stream 0)) (trace (os closed))) /\
  (exists closed : state,
      ices_log_shutdown tee_build piped_sample = Some (tt, closed) /\
      trace (os closed)
      = (trace (os piped_sample) ++ [Eices_util_fclose (stream 0)])%list) /\
  (exists closed : state,
      ices_log_close_logfile opened_sample = Some (1, closed) /\
      trace (os closed)
      = (trace (os opened_sample) ++ [Eices_util_fclose (stream 0)])%list).
Proof.
  split; [exact (proj2 sample_states_are_reached) |].
  split; [reflexivity |]. split; [reflexivity |].
  split; [| split].
  - eexists. split; [apply ices_log_close_logfile_run |].
    split; [reflexivity |].
    cbn. intuition discriminate.
  - unfold ices_log_shutdown.
    run_with (ices_log_close_logfile_run piped_sample).
    eexists. split; reflexivity.
  - eexists. split; [apply ices_log_close_logfile_run | reflexivity].
Qed.

(** C4 at an open sink: [ices_log_close_logfile] returns 1 and leaves
    [ices_config.logfile] pointing at the stream it has just closed, so the
    sink is not Closed; a second close is then not a no-op, it hands the same
    dead stream to [ices_util_fclose] once more.  Only when the handle is
    already NULL does the call do nothing. *)
Theorem close_logfile_keeps_handle :
  (forall s : state,
      exists s' : state,
        ices_log_close_logfile s = Some (1, s') /\
        logfile (ices_config s') = logfile (ices_config s)) /\
  ices_log_open_logfile direct_build
    (startup (Some "/tmp/icestest") false false []) = Some (1, opened_sample) /\
  (exists closed again : state,
      ices_log_close_logfile opened_sample = Some (1, closed) /\
      logfile (ices_config closed) = Some (stream 0) /\
      endpoint_of (os closed) (stream 0) = NotOpen /\
      sink_kind closed <> Closed /\
      ices_log_close_logfile closed = Some (1, again) /\
      trace (os again)
      = (trace (os closed) ++ [Eices_util_fclose (stream 0)])%list) /\
  (forall (dir : option string) (dm vb : bool) (err : string) (w : world),
      ices_log_close_logfile (mkState (mkConfig dir dm vb None) err w)
      = Some (1, mkState (mkConfig dir dm vb None) err w)).
Proof.
  split; [| split; [exact (proj1 sample_states_are_reached) | split]].
  - intros s. eexists. split; [apply ices_log_close_logfile_run |].
    reflexivity.
  - eexists. eexists.
    split; [apply ices_log_close_logfile_run |].
    split; [reflexivity |]. split; [reflexivity |].
    split; [discriminate |].
    split; [apply ices_log_close_logfile_run | reflexivity].
  - intros dir dm vb err w. now rewrite ices_log_close_logfile_run.
Qed.

(** ** Setting up the pipe to tee *)

(** The array [cmd] of [LOG_FILENAME_LEN + cmdLen] bytes takes the whole tee
    command for every name [namespace] can hold. *)
Lemma tee_command_fits (name : string) :
  strlen name <= LOG_FILENAME_LEN - 1 ->
  sprintf (LOG_FILENAME_LEN + 9) "tee -a '%s'" [AStr name]
  = Some (Some ("tee -a '" ++ name ++ "'")).
Proof.
  intros Hlen. unfold sprintf.
  change (vformat "tee -a '%s'" [AStr name])
    with (Some ("tee -a '" ++ name ++ "'")).
  assert (Hfit : (strlen ("tee -a '" ++ name ++ "'") <? LOG_FILENAME_LEN + 9)
                 = true).
  { apply Z.ltb_lt. rewrite !strlen_append.
    change (strlen "tee -a '") with 8. change (strlen "'") with 1.
    unfold LOG_FILENAME_LEN in *. lia. }
  cbv beta iota. now rewrite Hfit.
Qed.

(** When every call succeeds at startup, [ices_setup_output_redirects]
    leaves a pipe sink with standard output and standard error attached to
    the pipe's endpoint: what is printed on standard output reaches the
    sink. *)
Lemma ices_setup_output_redirects_pairs_stdout (p : platform) (s : state)
  (dir : string) :
  REDIRECT_LOGGING p = true ->
  base_directory (ices_config s) = Some dir ->
  strlen dir <= 1016 ->
  logfile (ices_config s) = None ->
  outcomes (os s) = [] ->
  exists (s' : state) (f : FILE),
    ices_setup_output_redirects p s = Some (1, s') /\
    logfile (ices_config s') = Some f /\
    sink_kind s' = PipeTee /\
    endpoint_of (os s') stdout = endpoint_of (os s') f /\
    endpoint_of (os s') stderr = endpoint_of (os s') f.
Proof.
  intros Hr Hdir Hlen Hsink Hcoming.
  unfold ices_setup_output_redirects. rewrite Hr.
  rewrite (bind_run _ _ _ _ _
             (ices_get_logfile_name_valid p None LOG_FILENAME_LEN s dir
                Hdir Hlen eq_refl)).
  pose proof (strlen_truncate (LOG_FILENAME_LEN - 1) (dir ++ "/ices.log")
                ltac:(unfold LOG_FILENAME_LEN; lia)) as Hname.
  set (name := truncate (LOG_FILENAME_LEN - 1) (dir ++ "/ices.log")) in *.
  cbv beta iota. change (negb (1 =? 1)) with false. cbv iota.
  rewrite (bind_run (lift (Some name)) _ s s name eq_refl).
  rewrite (bind_run _ _ s s _ (f_equal (fun o => lift o s)
                                 (tee_command_fits name Hname))).
  rewrite (bind_run (lift (Some _)) _ s s _ eq_refl).
  destruct s as [[bd dm vb lf] err [tr fds ns coming en]].
  simpl in Hsink, Hcoming. subst lf coming.
  assert (Hno1 : (3 + Z.of_nat ns =? 1) = false) by (apply Z.eqb_neq; lia).
  assert (Hno2 : (3 + Z.of_nat ns =? 2) = false) by (apply Z.eqb_neq; lia).
  assert (Hno1' : (1 =? 3 + Z.of_nat ns) = false) by (apply Z.eqb_neq; lia).
  assert (Hno2' : (2 =? 3 + Z.of_nat ns) = false) by (apply Z.eqb_neq; lia).
  exists
    (mkState (mkConfig bd dm vb (Some (stream ns))) err
       (mkWorld
          (tr ++ [Epopen ("tee -a '" ++ name ++ "'") "w" (Some (stream ns));
                  Edup2 (3 + Z.of_nat ns) 1 1; Edup2 (3 + Z.of_nat ns) 2 2])
          ((2, ToProcess ("tee -a '" ++ name ++ "'"))
           :: (1, ToProcess ("tee -a '" ++ name ++ "'"))
           :: (3 + Z.of_nat ns, ToProcess ("tee -a '" ++ name ++ "'"))
           :: fds) (S ns) [] en)),
    (stream ns).
  split.
  { unfold popen, dup2, bind, get_world, put_world, next_outcome,
      fresh_stream, ices_log_close_logfile, get_config, set_logfile, ret,
      log_event, attach, lookup_fd.
    cbn -[Z.add Z.of_nat Z.eqb append].
    change (1 =? -1) with false. cbv iota.
    cbn -[Z.add Z.of_nat Z.eqb append].
    rewrite Hno1', Z.eqb_refl.
    cbn -[Z.add Z.of_nat Z.eqb append].
    change (2 =? -1) with false. cbv iota.
    cbn -[Z.add Z.of_nat Z.eqb append].
    rewrite <- !app_assoc. reflexivity. }
  unfold sink_kind, endpoint_of, lookup_fd.
  cbn -[Z.add Z.of_nat Z.eqb append].
  rewrite ?Hno1, ?Hno2, ?Hno1', ?Hno2', ?Z.eqb_refl.
  cbn -[Z.add Z.of_nat Z.eqb append].
  repeat split.
Qed.

(** * Further properties of log.c *)

(** ** The last-error slot *)

(** X1: the last error is overwritten, not appended to: after two calls of
    [ices_log_error] the slot holds the second message alone, and neither
    call makes a call to the operating system or touches [ices_config]. *)
Theorem log_error_last_write_wins :
  forall (p : platform) (fmt1 fmt2 : string) (args1 args2 : list arg)
         (m1 m2 : string) (s : state),
    buff_text p fmt1 args1 = Some m1 ->
    buff_text p fmt2 args2 = Some m2 ->
    (ices_log_error p fmt1 args1 ;;
     ices_log_error p fmt2 args2 ;;
     ices_log_get_error) s
    = Some (m2, mkState (ices_config s) m2 (os s)).
Proof.
  intros p fmt1 fmt2 args1 args2 m1 m2 s H1 H2.
  run_with (ices_log_error_run p fmt1 args1 m1 s H1).
  run_with (ices_log_error_run p fmt2 args2 m2
              (mkState (ices_config s) m1 (os s)) H2).
  reflexivity.
Qed.

Lemma log_error_last_write_wins_witness :
  (ices_log_error direct_build "cannot open %s" [AStr "a.mp3"] ;;
   ices_log_error direct_build "stream %d down" [AInt 2] ;;
   ices_log_get_error) failed_sample
  = Some ("stream 2 down",
          mkState (ices_config failed_sample) "stream 2 down"
            (os failed_sample)).
Proof.
  apply (log_error_last_write_wins direct_build "cannot open %s"
           "stream %d down" [AStr "a.mp3"] [AInt 2] "cannot open a.mp3"
           "stream 2 down" failed_sample); reflexivity.
Defined.

(** X2: with [vsnprintf], a message longer than the buffer is cut silently:
    [ices_log_error] returns for every well-formed format and stores the first
    [BUFSIZE - 1] characters of the text, so the slot always holds fewer than
    [BUFSIZE] characters; a text that fits is stored whole. *)
Theorem log_error_truncates :
  forall (p : platform) (fmt : string) (args : list arg) (full : string)
         (s : state),
    HAVE_VSNPRINTF p = true ->
    0 < BUFSIZE p ->
    vformat fmt args = Some full ->
    ices_log_error p fmt args s
    = Some (tt, mkState (ices_config s) (truncate (BUFSIZE p - 1) full) (os s))
    /\ strlen (truncate (BUFSIZE p - 1) full) < BUFSIZE p
    /\ (strlen full < BUFSIZE p -> truncate (BUFSIZE p - 1) full = full).
Proof.
  intros p fmt args full s Hv Hpos Hf.
  assert (Hm : buff_text p fmt args = Some (truncate (BUFSIZE p - 1) full)).
  { unfold buff_text, snprintf. rewrite Hv, Hf.
    apply Z.ltb_lt in Hpos. now rewrite Hpos. }
  split; [now apply ices_log_error_run |].
  split; [apply (buff_text_fits p fmt args _ Hm) |].
  intros Hfit. apply truncate_fits. lia.
Qed.

Lemma log_error_truncates_witness :
  ices_log_error (mkPlatform 8 false true true strerror_sample)
    "Base directory is invalid" [] failed_sample
  = Some (tt, mkState (ices_config failed_sample) "Base di" (os failed_sample)).
Proof.
  apply (log_error_truncates (mkPlatform 8 false true true strerror_sample)
           "Base directory is invalid" [] "Base directory is invalid"
           failed_sample); reflexivity.
Defined.

(** X3: without [vsnprintf] the formatting is a plain [vsprintf] into
    [buff]: a text of [BUFSIZE] characters or more runs past the array, and
    none of the logging calls has a defined result. *)
Theorem vsprintf_overrun_is_undefined :
  forall (p : platform) (fmt : string) (args : list arg) (full : string)
         (s : state),
    HAVE_VSNPRINTF p = false ->
    vformat fmt args = Some full ->
    BUFSIZE p <= strlen full ->
    ices_log p fmt args s = None /\
    ices_log_error p fmt args s = None /\
    ices_log_error_output p fmt args s = None /\
    (verbose (ices_config s) = true -> ices_log_debug p fmt args s = None).
Proof.
  intros p fmt args full s Hv Hf Hlong.
  assert (Hm : buff_text p fmt args = None).
  { unfold buff_text, sprintf. rewrite Hv, Hf.
    assert (Hge : (strlen full <? BUFSIZE p) = false) by (apply Z.ltb_ge; lia).
    now rewrite Hge. }
  assert (Hb : format_buff p fmt args s = None).
  { unfold format_buff. now rewrite Hm. }
  split; [now apply ices_log_undefined |].
  split; [now apply bind_undefined |].
  split; [now apply bind_undefined |].
  intros Hverb. now apply ices_log_debug_undefined.
Qed.

Lemma vsprintf_overrun_is_undefined_witness :
  ices_log (mkPlatform 8 false false true strerror_sample)
    "Logfile opened" [] failed_sample = None /\
  ices_log_error (mkPlatform 8 false false true strerror_sample)
    "Logfile opened" [] failed_sample = None.
Proof.
  destruct (vsprintf_overrun_is_undefined
              (mkPlatform 8 false false true strerror_sample)
              "Logfile opened" [] "Logfile opened" failed_sample)
    as (Hlog & Herr & _).
  - reflexivity.
  - reflexivity.
  - vm_compute. discriminate.
  - split; assumption.
Defined.

(** ** The writer and the console *)



(** ** Shutdown *)

(** X5: [ices_log_shutdown] never reports an error: [ices_log_close_logfile]
    always returns 1, so the branch that logs the last error is dead.  The
    only call made is [ices_util_fclose] on the sink, if there is one;
    [ices_config] and the last error stay as they were. *)
Theorem shutdown_never_reports :
  forall (p : platform) (s : state),
    exists w : world,
      ices_log_shutdown p s = Some (tt, with_world s w) /\
      ices_log_close_logfile s = Some (1, with_world s w) /\
      trace w
      = (trace (os s)
         ++ match logfile (ices_config s) with
            | Some f => [Eices_util_fclose f]
            | None => []
            end)%list.
Proof.
  intros p s. eexists. split; [| split].
  - unfold ices_log_shutdown. run_with (ices_log_close_logfile_run s).
    reflexivity.
  - apply ices_log_close_logfile_run.
  - destruct (logfile (ices_config s)); cbn; [reflexivity |].
    now rewrite app_nil_r.
Qed.

(** ** Opening and rotating the log file *)

Lemma lookup_fd_attach_same (t : list (Z * endpoint)) (fd : Z) (e : endpoint) :
  lookup_fd ((fd, e) :: t) fd = e.
Proof. unfold lookup_fd. cbn [find fst snd]. now rewrite Z.eqb_refl. Qed.

Lemma lookup_fd_attach_other (t : list (Z * endpoint)) (fd fd' : Z)
  (e : endpoint) :
  fd' <> fd -> lookup_fd ((fd', e) :: t) fd = lookup_fd t fd.
Proof.
  intros Hne. unfold lookup_fd. cbn [find fst snd].
  apply Z.eqb_neq in Hne. now rewrite Hne.
Qed.

Lemma fopen_succeeds (path mode : string) (s : state) :
  next_succeeds (os s) = true ->
  fopen path mode s
  = Some (Some (stream (next_stream (os s))),
          with_world s (fopened path mode (os s))).
Proof.
  destruct s as [cfg err [tr fds ns coming en]].
  unfold next_succeeds, fopen, bind, get_world, next_outcome, fopened.
  cbn [os outcomes fst]. intros Hnext.
  destruct coming as [| [| e] coming]; try discriminate; reflexivity.
Qed.

Lemma fopen_fails (path mode : string) (s : state) (e : Z)
  (rest : list outcome) :
  outcomes (os s) = Fails e :: rest ->
  fopen path mode s = Some (None, with_world s (fopen_failed path mode e (os s))).
Proof.
  destruct s as [cfg err [tr fds ns coming en]].
  unfold fopen, bind, get_world, next_outcome, fopen_failed.
  cbn [os outcomes]. intros ->. reflexivity.
Qed.

(** After the name is built, [ices_log_open_logfile] is the [fopen] and what
    follows it. *)
Lemma ices_log_open_logfile_named (p : platform) (s : state) (dir : string) :
  base_directory (ices_config s) = Some dir ->
  strlen dir <= 1014 ->
  ices_log_open_logfile p s
  = (logfp <- fopen (dir ++ "/ices.log") "a" ;;
     match logfp with
     | None =>
         w <- get_world ;;
         ices_log_error p "Error while opening %s, error: %s"
           [AStr (dir ++ "/ices.log");
            AStr (ices_util_strerror p (errno w) ERR_BUFF_LEN)] ;;
         ret 0
     | Some f =>
         set_logfile (Some f) ;;
         (if HAVE_SETLINEBUF p then setlinebuf f else ret tt) ;;
         ret 1
     end) s.
Proof.
  intros Hdir Hlen. unfold ices_log_open_logfile.
  run_with (ices_get_logfile_name_exact p None s dir Hdir Hlen).
  reflexivity.
Qed.

Lemma ices_log_open_logfile_succeeds (p : platform) (s : state)
  (dir : string) :
  base_directory (ices_config s) = Some dir ->
  strlen dir <= 1014 ->
  next_succeeds (os s) = true ->
  ices_log_open_logfile p s
  = Some (1, opened_state p (dir ++ "/ices.log") s).
Proof.
  intros Hdir Hlen Hnext.
  rewrite (ices_log_open_logfile_named p s dir Hdir Hlen).
  run_with (fopen_succeeds (dir ++ "/ices.log") "a" s Hnext).
  unfold opened_state, bind, set_logfile, setlinebuf, update_world, ret,
    with_world.
  now destruct (HAVE_SETLINEBUF p).
Qed.

Lemma ices_log_open_logfile_fails (p : platform) (s : state) (dir : string)
  (e : Z) (rest : list outcome) (m : string) :
  base_directory (ices_config s) = Some dir ->
  strlen dir <= 1014 ->
  outcomes (os s) = Fails e :: rest ->
  buff_text p "Error while opening %s, error: %s"
    [AStr (dir ++ "/ices.log"); AStr (ices_util_strerror p e ERR_BUFF_LEN)]
  = Some m ->
  ices_log_open_logfile p s
  = Some (0, mkState (ices_config s) m
               (fopen_failed (dir ++ "/ices.log") "a" e (os s))).
Proof.
  intros Hdir Hlen Hcoming Hm.
  rewrite (ices_log_open_logfile_named p s dir Hdir Hlen).
  run_with (fopen_fails (dir ++ "/ices.log") "a" s e rest Hcoming).
  unfold bind at 1. unfold get_world at 1.
  cbn [with_world os fopen_failed errno].
  run_with (ices_log_error_run p _ _ m
              (with_world s (fopen_failed (dir ++ "/ices.log") "a" e (os s)))
              Hm).
  reflexivity.
Qed.

(** X7: with a base directory of at most 1014 characters and an [fopen] that
    succeeds, [ices_log_open_logfile] returns 1 and the new stream, opened on
    the directory followed by "/ices.log" in append mode, is the sink: a
    regular file.  The last error is not touched, and the only calls are the
    [fopen] and, where the platform has it, [setlinebuf] on the new stream. *)
Theorem open_logfile_installs_sink :
  forall (p : platform) (s : state) (dir : string),
    base_directory (ices_config s) = Some dir ->
    strlen dir <= 1014 ->
    next_succeeds (os s) = true ->
    exists s' : state,
      ices_log_open_logfile p s = Some (1, s') /\
      logfile (ices_config s') = Some (stream (next_stream (os s))) /\
      endpoint_of (os s') (stream (next_stream (os s)))
      = ToPath (dir ++ "/ices.log") "a" /\
      sink_kind s' = RegularFile /\
      lasterror s' = lasterror s /\
      trace (os s')
      = (trace (os s)
         ++ Efopen (dir ++ "/ices.log") "a"
              (Some (stream (next_stream (os s))))
         :: (if HAVE_SETLINEBUF p
             then [Esetlinebuf (stream (next_stream (os s)))]
             else []))%list.
Proof.
  intros p s dir Hdir Hlen Hnext.
  exists (opened_state p (dir ++ "/ices.log") s).
  split; [now apply ices_log_open_logfile_succeeds |].
  assert (Hend : endpoint_of (os (opened_state p (dir ++ "/ices.log") s))
                   (stream (next_stream (os s)))
                 = ToPath (dir ++ "/ices.log") "a").
  { unfold opened_state, endpoint_of.
    destruct (HAVE_SETLINEBUF p); cbn [os fdtab log_event fopened];
      apply lookup_fd_attach_same. }
  split; [reflexivity |]. split; [exact Hend |].
  split; [unfold sink_kind; cbn [opened_state ices_config logfile];
          now rewrite Hend |].
  split; [reflexivity |].
  unfold opened_state.
  destruct (HAVE_SETLINEBUF p); cbn [os trace log_event fopened];
    now rewrite <- ?app_assoc.
Qed.

Lemma open_logfile_installs_sink_witness :
  exists s' : state,
    ices_log_open_logfile direct_build
      (startup (Some "/tmp/icestest") false false []) = Some (1, s') /\
    logfile (ices_config s') = Some (stream 0) /\
    endpoint_of (os s') (stream 0) = ToPath "/tmp/icestest/ices.log" "a".
Proof.
  destruct (open_logfile_installs_sink direct_build
              (startup (Some "/tmp/icestest") false false [])
              "/tmp/icestest" eq_refl)
    as (s' & Hrun & Hsink & Hend & _).
  - vm_compute. discriminate.
  - reflexivity.
  - exists s'. repeat split; assumption.
Defined.

(** X8: when the [fopen] fails, [ices_log_open_logfile] returns 0, records
    "Error while opening <path>, error: <text of errno>" as the last error
    and leaves [ices_config], the sink included, as it was. *)
Theorem open_logfile_failure_recorded :
  forall (p : platform) (s : state) (dir : string) (e : Z)
         (rest : list outcome) (m : string),
    base_directory (ices_config s) = Some dir ->
    strlen dir <= 1014 ->
    outcomes (os s) = Fails e :: rest ->
    buff_text p "Error while opening %s, error: %s"
      [AStr (dir ++ "/ices.log"); AStr (ices_util_strerror p e ERR_BUFF_LEN)]
    = Some m ->
    exists s' : state,
      ices_log_open_logfile p s = Some (0, s') /\
      result_of (ices_log_get_error s') = Some m /\
      ices_config s' = ices_config s /\
      errno (os s') = e /\
      trace (os s')
      = (trace (os s) ++ [Efopen (dir ++ "/ices.log") "a" None])%list.
Proof.
  intros p s dir e rest m Hdir Hlen Hcoming Hm. eexists.
  split; [now apply (ices_log_open_logfile_fails p s dir e rest m) |].
  repeat split.
Qed.

Lemma open_logfile_failure_recorded_witness :
  exists s' : state,
    ices_log_open_logfile direct_build
      (startup (Some "/nowhere") false false [Fails 2]) = Some (0, s') /\
    result_of (ices_log_get_error s')
    = Some "Error while opening /nowhere/ices.log, error: errno 2" /\
    logfile (ices_config s') = None.
Proof.
  destruct (open_logfile_failure_recorded direct_build
              (startup (Some "/nowhere") false false [Fails 2])
              "/nowhere" 2 []
              "Error while opening /nowhere/ices.log, error: errno 2"
              eq_refl)
    as (s' & Hrun & Herr & Hcfg & _).
  - vm_compute. discriminate.
  - reflexivity.
  - reflexivity.
  - exists s'. split; [exact Hrun |]. split; [exact Herr |].
    now rewrite Hcfg.
Defined.

(** Closing a stream does not consume an outcome. *)
Lemma next_succeeds_util_fclosed (f : FILE) (w : world) :
  next_succeeds (util_fclosed f w) = next_succeeds w.
Proof.
  destruct w as [tr fds ns coming en]. unfold next_succeeds, next_outcome.
  cbn. now destruct coming.
Qed.

Lemma ices_log_close_logfile_sink (s : state) (f : FILE) :
  logfile (ices_config s) = Some f ->
  ices_log_close_logfile s = Some (1, with_world s (util_fclosed f (os s))).
Proof. intros Hf. now rewrite ices_log_close_logfile_run, Hf. Qed.

Lemma ices_log_reopen_logfile_succeeds (p : platform) (s : state)
  (dir : string) (f : FILE) :
  base_directory (ices_config s) = Some dir ->
  strlen dir <= 1014 ->
  logfile (ices_config s) = Some f ->
  next_succeeds (os s) = true ->
  ices_log_reopen_logfile p s
  = Some (1, opened_state p (dir ++ "/ices.log")
               (with_world s (util_fclosed f (os s)))).
Proof.
  intros Hdir Hlen Hsink Hnext. unfold ices_log_reopen_logfile.
  rewrite (bind_run _ (fun _ => ices_log_open_logfile p) _ _ _
             (ices_log_close_logfile_sink s f Hsink)).
  apply (ices_log_open_logfile_succeeds p
           (with_world s (util_fclosed f (os s))) dir Hdir Hlen).
  cbn [with_world os]. now rewrite next_succeeds_util_fclosed.
Qed.

(** A rotation whose [fopen] fails: the state it leaves. *)
Lemma ices_log_reopen_logfile_fails (p : platform) (s : state) (dir : string)
  (f : FILE) (e : Z) (rest : list outcome) (m : string) :
  base_directory (ices_config s) = Some dir ->
  strlen dir <= 1014 ->
  logfile (ices_config s) = Some f ->
  outcomes (os s) = Fails e :: rest ->
  buff_text p "Error while opening %s, error: %s"
    [AStr (dir ++ "/ices.log"); AStr (ices_util_strerror p e ERR_BUFF_LEN)]
  = Some m ->
  ices_log_reopen_logfile p s
  = Some (0, mkState (ices_config s) m
               (fopen_failed (dir ++ "/ices.log") "a" e
                  (util_fclosed f (os s)))).
Proof.
  intros Hdir Hlen Hsink Hcoming Hm. unfold ices_log_reopen_logfile.
  rewrite (bind_run _ (fun _ => ices_log_open_logfile p) _ _ _
             (ices_log_close_logfile_sink s f Hsink)).
  exact (ices_log_open_logfile_fails p
           (with_world s (util_fclosed f (os s))) dir e rest m
           Hdir Hlen Hcoming Hm).
Qed.

(** X9: rotation that succeeds.  With a sink [f], a base directory of at
    most 1014 characters and an [fopen] that succeeds,
    [ices_log_reopen_logfile] closes [f] with [ices_util_fclose], opens the
    same path again in append mode and makes the new stream the sink; it
    returns 1 and the last error is not touched. *)
Theorem reopen_rotates_the_sink :
  forall (p : platform) (s : state) (dir : string) (f : FILE),
    base_directory (ices_config s) = Some dir ->
    strlen dir <= 1014 ->
    logfile (ices_config s) = Some f ->
    next_succeeds (os s) = true ->
    exists s' : state,
      ices_log_reopen_logfile p s = Some (1, s') /\
      logfile (ices_config s') = Some (stream (next_stream (os s))) /\
      endpoint_of (os s') (stream (next_stream (os s)))
      = ToPath (dir ++ "/ices.log") "a" /\
      lasterror s' = lasterror s /\
      trace (os s')
      = (trace (os s)
         ++ Eices_util_fclose f
         :: Efopen (dir ++ "/ices.log") "a"
              (Some (stream (next_stream (os s))))
         :: (if HAVE_SETLINEBUF p
             then [Esetlinebuf (stream (next_stream (os s)))]
             else []))%list.
Proof.
  intros p s dir f Hdir Hlen Hsink Hnext.
  set (closed := with_world s (util_fclosed f (os s))).
  exists (opened_state p (dir ++ "/ices.log") closed).
  split.
  { unfold ices_log_reopen_logfile.
    rewrite (bind_run _ (fun _ => ices_log_open_logfile p) _ _ _
               (ices_log_close_logfile_sink s f Hsink)).
    apply (ices_log_open_logfile_succeeds p closed dir Hdir Hlen).
    unfold closed. cbn [with_world os].
    now rewrite next_succeeds_util_fclosed. }
  split; [reflexivity |].
  split.
  { unfold opened_state, endpoint_of.
    destruct (HAVE_SETLINEBUF p); cbn [os fdtab log_event fopened];
      apply lookup_fd_attach_same. }
  split; [reflexivity |].
  unfold opened_state.
  destruct (HAVE_SETLINEBUF p);
    cbn [os trace log_event fopened closed with_world util_fclosed attach
         next_stream];
    now rewrite <- !app_assoc.
Qed.

Lemma reopen_rotates_the_sink_witness :
  exists s' : state,
    ices_log_reopen_logfile direct_build opened_sample = Some (1, s') /\
    logfile (ices_config s') = Some (stream 1) /\
    endpoint_of (os s') (stream 1) = ToPath "/tmp/icestest/ices.log" "a".
Proof.
  destruct (reopen_rotates_the_sink direct_build opened_sample
              "/tmp/icestest" (stream 0) eq_refl)
    as (s' & Hrun & Hsink & Hend & _).
  - vm_compute. discriminate.
  - reflexivity.
  - reflexivity.
  - exists s'. repeat split; assumption.
Defined.

(** X10: rotation that fails.  When the [fopen] of the rotation fails,
    [ices_log_reopen_logfile] returns 0 with the error recorded, and
    [ices_config.logfile] still holds the stream that [ices_util_fclose]
    closed a moment before: the program is left with a sink whose stream is
    closed.  The only calls made are that close and the failed [fopen]. *)
Theorem failed_reopen_leaves_closed_sink :
  forall (p : platform) (s : state) (dir : string) (f : FILE) (e : Z)
         (rest : list outcome) (m : string),
    base_directory (ices_config s) = Some dir ->
    strlen dir <= 1014 ->
    logfile (ices_config s) = Some f ->
    outcomes (os s) = Fails e :: rest ->
    buff_text p "Error while opening %s, error: %s"
      [AStr (dir ++ "/ices.log"); AStr (ices_util_strerror p e ERR_BUFF_LEN)]
    = Some m ->
    exists s' : state,
      ices_log_reopen_logfile p s = Some (0, s') /\
      result_of (ices_log_get_error s') = Some m /\
      logfile (ices_config s') = Some f /\
      endpoint_of (os s') f = NotOpen /\
      trace (os s')
      = (trace (os s)
         ++ [Eices_util_fclose f; Efopen (dir ++ "/ices.log") "a" None])%list.
Proof.
  intros p s dir f e rest m Hdir Hlen Hsink Hcoming Hm. eexists.
  split; [exact (ices_log_reopen_logfile_fails p s dir f e rest m
                   Hdir Hlen Hsink Hcoming Hm) |].
  split; [reflexivity |]. split; [exact Hsink |].
  split; [apply lookup_fd_attach_same |].
  cbn [os trace fopen_failed util_fclosed log_event attach].
  now rewrite <- app_assoc.
Qed.

Lemma failed_reopen_leaves_closed_sink_witness :
  exists s' : state,
    ices_log_reopen_logfile direct_build rotation_failing_sample
    = Some (0, s') /\
    result_of (ices_log_get_error s')
    = Some "Error while opening /tmp/icestest/ices.log, error: errno 13" /\
    logfile (ices_config s') = Some (stream 0) /\
    endpoint_of (os s') (stream 0) = NotOpen.
Proof.
  destruct (failed_reopen_leaves_closed_sink direct_build
              rotation_failing_sample "/tmp/icestest" (stream 0) 13 []
              "Error while opening /tmp/icestest/ices.log, error: errno 13"
              eq_refl)
    as (s' & Hrun & Herr & Hsink & Hend & _).
  - vm_compute. discriminate.
  - reflexivity.
  - reflexivity.
  - reflexivity.
  - exists s'. repeat split; assumption.
Defined.

(** ** Rotation against the specification's close() and openFile() *)

(** The specification's close() at a sink that is not a pipe: the stream
    goes to [ices_util_fclose] and the handle is reset. *)
Lemma spec_close_file (s : state) (f : FILE) :
  logfile (ices_config s) = Some f ->
  is_fifo (endpoint_of (os s) f) = false ->
  spec_close s = Some (1, with_no_sink s (util_fclosed f (os s))).
Proof.
  intros Hf Hk. unfold spec_close.
  rewrite (bind_run get_config _ s s (ices_config s) eq_refl), Hf.
  rewrite (bind_run get_world _ s s (os s) eq_refl), Hk.
  reflexivity.
Qed.

Lemma spec_close_closed (s : state) :
  logfile (ices_config s) = None -> spec_close s = Some (1, s).
Proof.
  intros Hf. unfold spec_close.
  now rewrite (bind_run get_config _ s s (ices_config s) eq_refl), Hf.
Qed.

(** For a base directory that is neither empty nor longer than 1014
    characters the specification's openFile() and [ices_log_open_logfile]
    are the same computation. *)
Lemma spec_openFile_is_open_logfile (p : platform) (s : state) (dir : string) :
  base_directory (ices_config s) = Some dir ->
  0 < strlen dir ->
  strlen dir <= 1014 ->
  spec_openFile p s = ices_log_open_logfile p s.
Proof.
  intros Hdir Hpos Hlen.
  rewrite (ices_log_open_logfile_named p s dir Hdir Hlen).
  unfold spec_openFile.
  rewrite (bind_run get_config _ s s (ices_config s) eq_refl), Hdir.
  assert (Hok : (strlen dir =? 0) || (1016 <? strlen dir) = false).
  { apply orb_false_iff. split; [apply Z.eqb_neq | apply Z.ltb_ge]; lia. }
  rewrite Hok. reflexivity.
Qed.

Lemma ices_log_reopen_logfile_closed (p : platform) (s : state) :
  logfile (ices_config s) = None ->
  ices_log_reopen_logfile p s = ices_log_open_logfile p s.
Proof.
  intros Hf. unfold ices_log_reopen_logfile.
  rewrite (bind_run _ (fun _ => ices_log_open_logfile p) _ _ _
             (ices_log_close_logfile_run s)).
  now rewrite Hf, with_world_same.
Qed.

(** C5 against the close() of the specification, which resets the handle.
    With a base directory of 1 to 1014 characters and a sink that is not a
    pipe, [ices_log_reopen_logfile] and close() followed by openFile() end in
    the same state with the same result when the [fopen] succeeds, and
    whenever there was no sink to begin with.  When there is a sink and the
    [fopen] fails they return the same 0 but end in different states: the
    code keeps in [ices_config.logfile] the stream it has just closed, where
    close() followed by openFile() leaves no handle and a Closed sink. *)
Theorem reopen_keeps_the_handle_close_resets :
  forall (p : platform) (s : state) (dir : string),
    base_directory (ices_config s) = Some dir ->
    0 < strlen dir ->
    strlen dir <= 1014 ->
    sink_kind s <> PipeTee ->
    (next_succeeds (os s) = true ->
     ices_log_reopen_logfile p s = spec_reopen p s) /\
    (logfile (ices_config s) = None ->
     ices_log_reopen_logfile p s = spec_reopen p s) /\
    (forall (f : FILE) (e : Z) (rest : list outcome) (m : string),
        logfile (ices_config s) = Some f ->
        outcomes (os s) = Fails e :: rest ->
        buff_text p "Error while opening %s, error: %s"
          [AStr (dir ++ "/ices.log");
           AStr (ices_util_strerror p e ERR_BUFF_LEN)]
        = Some m ->
        exists s1 s2 : state,
          ices_log_reopen_logfile p s = Some (0, s1) /\
          spec_reopen p s = Some (0, s2) /\
          logfile (ices_config s1) = Some f /\
          endpoint_of (os s1) f = NotOpen /\
          logfile (ices_config s2) = None /\
          sink_kind s2 = Closed /\
          os s1 = os s2 /\
          lasterror s1 = lasterror s2).
Proof.
  intros p s dir Hdir Hpos Hlen Hkind.
  assert (Hfile : forall f, logfile (ices_config s) = Some f ->
                            is_fifo (endpoint_of (os s) f) = false).
  { intros f Hf. unfold sink_kind in Hkind. rewrite Hf in Hkind.
    destruct (is_fifo (endpoint_of (os s) f)); [now elim Hkind | reflexivity]. }
  assert (Hnone : logfile (ices_config s) = None ->
                  ices_log_reopen_logfile p s = spec_reopen p s).
  { intros Hf. rewrite (ices_log_reopen_logfile_closed p s Hf).
    unfold spec_reopen.
    rewrite (bind_run _ (fun _ => spec_openFile p) _ _ _
               (spec_close_closed s Hf)).
    symmetry. now apply (spec_openFile_is_open_logfile p s dir). }
  split; [| split; [exact Hnone |]].
  - intros Hnext. destruct (logfile (ices_config s)) as [f |] eqn:Hf;
      [| now apply Hnone].
    rewrite (ices_log_reopen_logfile_succeeds p s dir f Hdir Hlen Hf Hnext).
    unfold spec_reopen.
    rewrite (bind_run _ (fun _ => spec_openFile p) _ _ _
               (spec_close_file s f Hf (Hfile f eq_refl))).
    cbv beta.
    rewrite (spec_openFile_is_open_logfile p
               (with_no_sink s (util_fclosed f (os s))) dir Hdir Hpos Hlen).
    rewrite (ices_log_open_logfile_succeeds p
               (with_no_sink s (util_fclosed f (os s))) dir Hdir Hlen).
    + reflexivity.
    + cbn [with_no_sink os]. now rewrite next_succeeds_util_fclosed.
  - intros f e rest m Hf Hcoming Hm.
    exists (mkState (ices_config s) m
              (fopen_failed (dir ++ "/ices.log") "a" e
                 (util_fclosed f (os s)))),
           (mkState (ices_config (with_no_sink s (util_fclosed f (os s)))) m
              (fopen_failed (dir ++ "/ices.log") "a" e
                 (util_fclosed f (os s)))).
    split; [exact (ices_log_reopen_logfile_fails p s dir f e rest m
                     Hdir Hlen Hf Hcoming Hm) |].
    split.
    { unfold spec_reopen.
      rewrite (bind_run _ (fun _ => spec_openFile p) _ _ _
                 (spec_close_file s f Hf (Hfile f Hf))).
      cbv beta.
      rewrite (spec_openFile_is_open_logfile p
                 (with_no_sink s (util_fclosed f (os s))) dir Hdir Hpos Hlen).
      exact (ices_log_open_logfile_fails p
               (with_no_sink s (util_fclosed f (os s))) dir e rest m
               Hdir Hlen Hcoming Hm). }
    split; [exact Hf |].
    split; [apply lookup_fd_attach_same |].
    repeat split.
Qed.

Lemma reopen_keeps_the_handle_close_resets_witness :
  ices_log_reopen_logfile direct_build opened_sample
  = spec_reopen direct_build opened_sample /\
  exists s1 s2 : state,
    ices_log_reopen_logfile direct_build rotation_failing_sample
    = Some (0, s1) /\
    spec_reopen direct_build rotation_failing_sample = Some (0, s2) /\
    logfile (ices_config s1) = Some (stream 0) /\
    endpoint_of (os s1) (stream 0) = NotOpen /\
    logfile (ices_config s2) = None.
Proof.
  split.
  - destruct (reopen_keeps_the_handle_close_resets direct_build opened_sample
                "/tmp/icestest" eq_refl)
      as (Hsame & _).
    + reflexivity.
    + vm_compute. discriminate.
    + discriminate.
    + apply Hsame. reflexivity.
  - destruct (reopen_keeps_the_handle_close_resets direct_build
                rotation_failing_sample "/tmp/icestest" eq_refl)
      as (_ & _ & Hfail).
    + reflexivity.
    + vm_compute. discriminate.
    + discriminate.
    + destruct (Hfail (stream 0) 13 []
                  "Error while opening /tmp/icestest/ices.log, error: errno 13"
                  eq_refl eq_refl eq_refl)
        as (s1 & s2 & H1 & H2 & Hk & Hend & Hn & _).
      exists s1, s2. repeat split; assumption.
Defined.

(** ** Setting up the pipe, further *)

Lemma popen_succeeds (cmd mode : string) (s : state) :
  next_succeeds (os s) = true ->
  popen cmd mode s
  = Some (Some (stream (next_stream (os s))),
          with_world s (popened cmd mode (os s))).
Proof.
  destruct s as [cfg err [tr fds ns coming en]].
  unfold next_succeeds, popen, bind, get_world, next_outcome, popened.
  cbn [os outcomes fst]. intros Hnext.
  destruct coming as [| [| e] coming]; try discriminate; reflexivity.
Qed.

Lemma popen_fails (cmd mode : string) (s : state) (e : Z)
  (rest : list outcome) :
  outcomes (os s) = Fails e :: rest ->
  popen cmd mode s = Some (None, with_world s (popen_failed cmd mode e (os s))).
Proof.
  destruct s as [cfg err [tr fds ns coming en]].
  unfold popen, bind, get_world, next_outcome, popen_failed.
  cbn [os outcomes]. intros ->. reflexivity.
Qed.

(** In a tee build, once the name and the command are built,
    [ices_setup_output_redirects] is the [popen] and what follows it. *)
Lemma ices_setup_output_redirects_named (p : platform) (s : state)
  (dir : string) :
  REDIRECT_LOGGING p = true ->
  base_directory (ices_config s) = Some dir ->
  strlen dir <= 1016 ->
  ices_setup_output_redirects p s
  = (pipe <- popen ("tee -a '"
                    ++ truncate (LOG_FILENAME_LEN - 1) (dir ++ "/ices.log")
                    ++ "'") "w" ;;
     match pipe with
     | None => ices_log p "can't create pipe" [] ;; ret 0
     | Some pipe =>
         res1 <- dup2 (fileno pipe) (fileno stdout) ;;
         (if res1 =? -1 then
            pclose pipe ;; ices_log p "can't redirect stdout to pipe" []
          else ret tt) ;;
         res2 <- dup2 (fileno pipe) (fileno stderr) ;;
         (if res2 =? -1 then
            pclose pipe ;;
            freopen "/dev/tty" "w" stdout ;;
            ices_log p "can't redirect stderr to pipe" []
          else ret tt) ;;
         ices_log_close_logfile ;;
         set_logfile (Some pipe) ;;
         ret 1
     end) s.
Proof.
  intros Hr Hdir Hlen. unfold ices_setup_output_redirects. rewrite Hr.
  run_with (ices_get_logfile_name_valid p None LOG_FILENAME_LEN s dir
              Hdir Hlen eq_refl).
  pose proof (strlen_truncate (LOG_FILENAME_LEN - 1) (dir ++ "/ices.log")
                ltac:(unfold LOG_FILENAME_LEN; lia)) as Hname.
  set (name := truncate (LOG_FILENAME_LEN - 1) (dir ++ "/ices.log")) in *.
  cbv beta iota zeta. change (negb (1 =? 1)) with false. cbv iota.
  rewrite (bind_run (lift (Some name)) _ s s name eq_refl).
  rewrite (bind_run _ _ s s _ (f_equal (fun o => lift o s)
                                 (tee_command_fits name Hname))).
  rewrite (bind_run (lift (Some _)) _ s s _ eq_refl).
  reflexivity.
Qed.

Lemma dup2_fails (oldfd newfd : Z) (s : state) (e : Z)
  (rest : list outcome) :
  outcomes (os s) = Fails e :: rest ->
  dup2 oldfd newfd s
  = Some (-1, with_world s
                (mkWorld (trace (os s) ++ [Edup2 oldfd newfd (-1)])%list
                   (fdtab (os s)) (next_stream (os s)) rest e)).
Proof.
  destruct s as [cfg err [tr fds ns coming en]]. cbn [os outcomes].
  intros ->. reflexivity.
Qed.

(** [pclose] of an open pipe closes its descriptor. *)
Lemma pclose_pipe (f : FILE) (s : state) :
  is_fifo (endpoint_of (os s) f) = true ->
  pclose f s
  = Some (tt, with_world s
                (log_event (Epclose f) (attach (fileno f) NotOpen (os s)))).
Proof.
  intros Hk. unfold pclose.
  rewrite (bind_run get_world _ s s (os s) eq_refl), Hk. reflexivity.
Qed.

(** [pclose] of anything else, a stream already closed included, has no
    result. *)
Lemma pclose_not_a_pipe (f : FILE) (s : state) :
  is_fifo (endpoint_of (os s) f) = false -> pclose f s = None.
Proof.
  intros Hk. unfold pclose.
  rewrite (bind_run get_world _ s s (os s) eq_refl), Hk. reflexivity.
Qed.

(** A sequence whose continuation never reports a failure does not report
    one either. *)
Lemma never_reports_bind {A : Type} (m : M A) (k : A -> M Z) (s : state) :
  (forall (a : A) (s' : state), reports_failure (k a s') = false) ->
  reports_failure (bind m k s) = false.
Proof.
  intros Hk. unfold bind. destruct (m s) as [[a s'] |]; [apply Hk | reflexivity].
Qed.

(** After a [popen] that succeeded the only [return] left in
    [ices_setup_output_redirects] is the [return 1] of its last line. *)
Lemma ices_setup_output_redirects_piped (p : platform) (s : state)
  (dir : string) :
  REDIRECT_LOGGING p = true ->
  base_directory (ices_config s) = Some dir ->
  strlen dir <= 1016 ->
  next_succeeds (os s) = true ->
  reports_failure (ices_setup_output_redirects p s) = false.
Proof.
  intros Hr Hdir Hlen Hnext.
  rewrite (ices_setup_output_redirects_named p s dir Hr Hdir Hlen).
  run_with (popen_succeeds
              ("tee -a '"
               ++ truncate (LOG_FILENAME_LEN - 1) (dir ++ "/ices.log") ++ "'")
              "w" s Hnext).
  cbv beta iota.
  do 6 (apply never_reports_bind; intros ? ?).
  reflexivity.
Qed.

(** C3 at a [dup2] onto standard output that fails after [popen] has
    succeeded: [ices_setup_output_redirects] does not return 0, whatever the
    calls that follow do.  The pipe is closed with [pclose] and a line is
    printed through [ices_log], but there is no [return]: the function goes
    on to the [dup2] onto standard error, and when that fails too, as it
    does on the descriptor just closed, [pclose] is called a second time on
    the closed pipe, which has no meaning in C: the call has no result. *)
Theorem stdout_redirect_failure_is_not_reported :
  forall (p : platform) (s : state) (dir : string) (e : Z)
         (rest : list outcome),
    REDIRECT_LOGGING p = true ->
    base_directory (ices_config s) = Some dir ->
    strlen dir <= 1016 ->
    outcomes (os s) = Succeeds :: Fails e :: rest ->
    reports_failure (ices_setup_output_redirects p s) = false /\
    (forall (e' : Z) (rest' : list outcome),
        rest = Fails e' :: rest' ->
        ices_setup_output_redirects p s = None).
Proof.
  intros p s dir e rest Hr Hdir Hlen Hcoming.
  assert (Hnext : next_succeeds (os s) = true).
  { unfold next_succeeds, next_outcome. now rewrite Hcoming. }
  split; [now apply (ices_setup_output_redirects_piped p s dir) |].
  intros e' rest' ->.
  rewrite (ices_setup_output_redirects_named p s dir Hr Hdir Hlen).
  set (cmd := "tee -a '"
              ++ truncate (LOG_FILENAME_LEN - 1) (dir ++ "/ices.log") ++ "'").
  run_with (popen_succeeds cmd "w" s Hnext).
  destruct s as [cfg err [tr fds ns coming en]].
  cbn [os outcomes] in Hcoming. subst coming.
  cbv beta iota. unfold popened. tidy. cbn [tl].
  at_state ltac:(fun st =>
    run_with (dup2_fails (fileno (stream ns)) (fileno stdout) st e
                (Fails e' :: rest') eq_refl)).
  tidy. change (-1 =? -1) with true. cbv iota.
  rewrite !bind_assoc.
  at_state ltac:(fun st =>
    run_with (pclose_pipe (stream ns) st (f_equal is_fifo
                (lookup_fd_attach_same fds (fileno (stream ns))
                   (ToProcess cmd))))).
  tidy.
  destruct (buff_text p "can't redirect stdout to pipe" []) as [m |] eqn:Hm;
    [| apply bind_undefined; now apply ices_log_undefined].
  at_state ltac:(fun st => run_with (ices_log_run p _ _ m st Hm)).
  unfold add_events. tidy.
  at_state ltac:(fun st =>
    run_with (dup2_fails (fileno (stream ns)) (fileno stderr) st e'
                rest' eq_refl)).
  tidy. change (-1 =? -1) with true. cbv iota.
  rewrite !bind_assoc.
  apply bind_undefined, pclose_not_a_pipe.
  unfold endpoint_of. tidy. now rewrite lookup_fd_attach_same.
Qed.

Lemma stdout_redirect_failure_is_not_reported_witness :
  reports_failure
    (ices_setup_output_redirects tee_build
       (startup (Some "/tmp/icestest") false false
          [Succeeds; Fails 4; Fails 9])) = false /\
  ices_setup_output_redirects tee_build
    (startup (Some "/tmp/icestest") false false [Succeeds; Fails 4; Fails 9])
  = None.
Proof.
  destruct (stdout_redirect_failure_is_not_reported tee_build
              (startup (Some "/tmp/icestest") false false
                 [Succeeds; Fails 4; Fails 9])
              "/tmp/icestest" 4 [Fails 9] eq_refl eq_refl)
    as (Hnever & Hnone).
  - vm_compute. discriminate.
  - reflexivity.
  - split; [exact Hnever | exact (Hnone 9 [] eq_refl)].
Defined.

(** X11: once [popen] has succeeded, no failure of a redirection is reported
    to the caller: whatever the two [dup2] calls and the [freopen] do,
    [ices_setup_output_redirects] does not return 0. *)
Theorem redirects_never_fail_once_piped :
  forall (p : platform) (s : state) (dir : string),
    REDIRECT_LOGGING p = true ->
    base_directory (ices_config s) = Some dir ->
    strlen dir <= 1016 ->
    next_succeeds (os s) = true ->
    reports_failure (ices_setup_output_redirects p s) = false.
Proof.
  intros p s dir Hr Hdir Hlen Hnext.
  now apply (ices_setup_output_redirects_piped p s dir).
Qed.

Lemma redirects_never_fail_once_piped_witness :
  reports_failure
    (ices_setup_output_redirects tee_build
       (startup (Some (long_name 1016)) false false
          [Succeeds; Succeeds; Fails 9])) = false.
Proof.
  apply (redirects_never_fail_once_piped tee_build
           (startup (Some (long_name 1016)) false false
              [Succeeds; Succeeds; Fails 9]) (long_name 1016));
    reflexivity.
Defined.


(** X12: when [popen] fails, [ices_setup_output_redirects] returns 0 after
    printing "can't create pipe" on standard output; [ices_config] and the
    last error stay as they were, so [ices_log_get_error] does not tell the
    caller why. *)
Theorem redirects_fail_without_pipe :
  forall (p : platform) (s : state) (dir : string) (e : Z)
         (rest : list outcome),
    REDIRECT_LOGGING p = true ->
    base_directory (ices_config s) = Some dir ->
    strlen dir <= 1014 ->
    outcomes (os s) = Fails e :: rest ->
    strlen "can't create pipe" < BUFSIZE p ->
    exists s' : state,
      ices_setup_output_redirects p s = Some (0, s') /\
      ices_config s' = ices_config s /\
      lasterror s' = lasterror s /\
      trace (os s')
      = (trace (os s)
         ++ [Epopen ("tee -a '" ++ (dir ++ "/ices.log") ++ "'") "w" None;
             Ewrite stdout (endpoint_of (os s) stdout)
               ("can't create pipe" ++ nl)])%list.
Proof.
  intros p s dir e rest Hr Hdir Hlen Hcoming Hfit.
  rewrite (ices_setup_output_redirects_named p s dir Hr Hdir
             ltac:(lia)).
  assert (Hcut : truncate (LOG_FILENAME_LEN - 1) (dir ++ "/ices.log")
                 = dir ++ "/ices.log").
  { apply truncate_fits. rewrite strlen_append.
    change (strlen "/ices.log") with 9. unfold LOG_FILENAME_LEN. lia. }
  rewrite Hcut.
  run_with (popen_fails ("tee -a '" ++ (dir ++ "/ices.log") ++ "'") "w"
              s e rest Hcoming).
  assert (Hm : buff_text p "can't create pipe" [] = Some "can't create pipe").
  { apply buff_text_whole; [reflexivity | exact Hfit]. }
  run_with (ices_log_run p _ _ _
              (with_world s
                 (popen_failed ("tee -a '" ++ (dir ++ "/ices.log") ++ "'")
                    "w" e (os s))) Hm).
  eexists. split; [reflexivity |].
  split; [reflexivity |]. split; [reflexivity |].
  rewrite dispatched_to_stdout by exact Hr.
  cbn [with_world os add_events trace popen_failed].
  rewrite <- app_assoc. reflexivity.
Qed.

Lemma redirects_fail_without_pipe_witness :
  exists s' : state,
    ices_setup_output_redirects tee_build
      (startup (Some "/tmp/icestest") false false [Fails 24]) = Some (0, s') /\
    lasterror s' = "" /\
    trace (os s')
    = [Epopen "tee -a '/tmp/icestest/ices.log'" "w" None;
       Ewrite stdout Terminal ("can't create pipe" ++ nl)].
Proof.
  destruct (redirects_fail_without_pipe tee_build
              (startup (Some "/tmp/icestest") false false [Fails 24])
              "/tmp/icestest" 24 [] eq_refl eq_refl)
    as (s' & Hrun & _ & Herr & Htrace).
  - vm_compute. discriminate.
  - reflexivity.
  - reflexivity.
  - exists s'. split; [exact Hrun |]. split; [exact Herr | exact Htrace].
Defined.

(** ** Start-up *)

Lemma freopen_ok (path mode : string) (f : FILE) (s : state) :
  outcomes (os s) = [] ->
  freopen path mode f s
  = Some (Some f,
          with_world s (log_event (Efreopen path mode f (Some f))
                          (attach (fileno f) (ToPath path mode) (os s)))).
Proof.
  destruct s as [cfg err [tr fds ns coming en]]. cbn [os outcomes].
  intros ->. reflexivity.
Qed.

Lemma fileno_stream_not_std (k : nat) :
  fileno (stream k) <> 0 /\ fileno (stream k) <> 1 /\ fileno (stream k) <> 2.
Proof. unfold fileno. lia. Qed.

(** The descriptor of a stream handed out by [fopen] or [popen] is none of
    the standard three, so attaching it leaves theirs alone. *)
Lemma lookup_fd_past_stream (t : list (Z * endpoint)) (k : nat)
  (e : endpoint) (fd : Z) :
  0 <= fd <= 2 ->
  lookup_fd ((fileno (stream k), e) :: t) fd = lookup_fd t fd.
Proof.
  intros Hfd. apply lookup_fd_attach_other.
  pose proof (fileno_stream_not_std k). lia.
Qed.

Lemma dup2_ok (oldfd newfd : Z) (s : state) :
  outcomes (os s) = [] ->
  dup2 oldfd newfd s
  = Some (newfd,
          with_world s (log_event (Edup2 oldfd newfd newfd)
                          (attach newfd (lookup_fd (fdtab (os s)) oldfd)
                             (os s)))).
Proof.
  destruct s as [cfg err [tr fds ns coming en]]. cbn [os outcomes].
  intros ->. reflexivity.
Qed.

Lemma fstat_ok (fd : Z) (s : state) :
  outcomes (os s) = [] ->
  fstat fd s
  = Some ((0, is_fifo (lookup_fd (fdtab (os s)) fd)),
          with_world s (log_event (Efstat fd 0) (os s))).
Proof.
  destruct s as [cfg err [tr fds ns coming en]]. cbn [os outcomes].
  intros ->. reflexivity.
Qed.

(** [ices_log_daemonize] when every call succeeds: the state it leaves (for
    a previous sink that is a pipe, once its [pclose] has returned). *)
Lemma ices_log_daemonize_succeeds (p : platform) (s : state) (dir : string)
  (prior : option nat) :
  base_directory (ices_config s) = Some dir ->
  strlen dir <= 1014 ->
  logfile (ices_config s) = option_map stream prior ->
  outcomes (os s) = [] ->
  ices_log_daemonize p s
  = Some (tt, with_sink s (stream (next_stream (os s)))
                (daemonized_world p (dir ++ "/ices.log") prior (os s))).
Proof.
  destruct s as [[bd dm vb lf] err [tr fds ns coming en]].
  cbn [ices_config base_directory logfile os outcomes].
  intros -> Hlen -> ->.
  unfold ices_log_daemonize.
  at_state ltac:(fun st =>
    run_with (freopen_ok "/dev/null" "r" stdin st eq_refl)).
  tidy.
  at_state ltac:(fun st =>
    run_with (ices_get_logfile_name_exact p None st dir eq_refl Hlen)).
  cbv beta iota. change (negb (1 =? 1)) with false. cbv iota.
  at_state ltac:(fun st =>
    rewrite (bind_run (lift (Some (dir ++ "/ices.log"))) _ st st _ eq_refl)).
  at_state ltac:(fun st =>
    rewrite (bind_run (fflush stdout) _ st _ tt eq_refl)).
  tidy.
  at_state ltac:(fun st =>
    run_with (freopen_ok (dir ++ "/ices.log") "a" stdout st eq_refl)).
  tidy.
  at_state ltac:(fun st =>
    rewrite (bind_run get_config _ st st (ices_config st) eq_refl)).
  tidy.
  assert (Hclose :
    forall k : nat,
      is_fifo
        (lookup_fd
           ((fileno stdout, ToPath (dir ++ "/ices.log") "a")
            :: (fileno stdin, ToPath "/dev/null" "r") :: fds)
           (fileno (stream k)))
      = is_fifo (lookup_fd fds (fileno (stream k)))).
  { intros k. pose proof (fileno_stream_not_std k) as (H0 & H1 & _).
    rewrite !lookup_fd_attach_other; [reflexivity | | ];
      cbn [fileno] in *; lia. }
  assert (Hfinish :
    forall (calls : list event) (closed : list (Z * endpoint)),
      lookup_fd (closed ++ (fileno stdout, ToPath (dir ++ "/ices.log") "a")
                        :: (fileno stdin, ToPath "/dev/null" "r") :: fds)%list
        (fileno stdout) = ToPath (dir ++ "/ices.log") "a" ->
      (res <- dup2 (fileno stdout) (fileno stderr) ;;
       (if res =? -1
        then ices_log p "can't redirect stderr to pipe" []
        else ret tt) ;;
       set_logfile (Some stdout) ;;
       freopen "/dev/null" "w" stdout ;;
       freopen "/dev/null" "w" stderr ;;
       ices_log_reopen_logfile p ;; ret tt)
        (mkState (mkConfig (Some dir) dm vb None) err
           (mkWorld
              (tr ++ [Efreopen "/dev/null" "r" stdin (Some stdin);
                      Efflush stdout;
                      Efreopen (dir ++ "/ices.log") "a" stdout (Some stdout)]
                  ++ calls)%list
              (closed ++ (fileno stdout, ToPath (dir ++ "/ices.log") "a")
                      :: (fileno stdin, ToPath "/dev/null" "r") :: fds)%list
              ns [] en))
      = Some (tt,
              mkState (mkConfig (Some dir) dm vb (Some (stream ns))) err
                (mkWorld
                   (tr ++ [Efreopen "/dev/null" "r" stdin (Some stdin);
                           Efflush stdout;
                           Efreopen (dir ++ "/ices.log") "a" stdout
                             (Some stdout)]
                       ++ calls
                       ++ [Edup2 1 2 2;
                           Efreopen "/dev/null" "w" stdout (Some stdout);
                           Efreopen "/dev/null" "w" stderr (Some stderr);
                           Eices_util_fclose stdout;
                           Efopen (dir ++ "/ices.log") "a" (Some (stream ns))]
                       ++ (if HAVE_SETLINEBUF p
                           then [Esetlinebuf (stream ns)] else []))%list
                   ((fileno (stream ns), ToPath (dir ++ "/ices.log") "a")
                    :: (1, NotOpen)
                    :: (2, ToPath "/dev/null" "w")
                    :: (1, ToPath "/dev/null" "w")
                    :: (2, ToPath (dir ++ "/ices.log") "a")
                    :: closed
                    ++ (1, ToPath (dir ++ "/ices.log") "a")
                    :: (0, ToPath "/dev/null" "r") :: fds)%list
                   (S ns) [] en))).
  { intros calls closed Hout.
    at_state ltac:(fun st =>
      run_with (dup2_ok (fileno stdout) (fileno stderr) st eq_refl)).
    tidy. rewrite Hout. change (fileno stderr =? -1) with false. cbv iota.
    at_state ltac:(fun st => rewrite (bind_run (ret tt) _ st st tt eq_refl)).
    at_state ltac:(fun st =>
      rewrite (bind_run (set_logfile (Some stdout)) _ st _ tt eq_refl)).
    tidy.
    at_state ltac:(fun st =>
      run_with (freopen_ok "/dev/null" "w" stdout st eq_refl)).
    tidy.
    at_state ltac:(fun st =>
      run_with (freopen_ok "/dev/null" "w" stderr st eq_refl)).
    tidy.
    at_state ltac:(fun st =>
      run_with (ices_log_reopen_logfile_succeeds p st dir stdout
                  eq_refl Hlen eq_refl eq_refl)).
    unfold ret, opened_state, fopened. tidy.
    destruct (HAVE_SETLINEBUF p); tidy; cbn [tl fileno];
      repeat rewrite <- app_assoc; reflexivity. }
  destruct prior as [k |]; cbn [option_map].
  - rewrite bind_assoc.
    at_state ltac:(fun st => run_with (fstat_ok (fileno (stream k)) st eq_refl)).
    tidy. cbv beta iota. change (negb (0 =? -1)) with true. cbv iota.
    rewrite Hclose, bind_assoc.
    assert (Hout : lookup_fd
                     ([(fileno (stream k), NotOpen)]
                      ++ (fileno stdout, ToPath (dir ++ "/ices.log") "a")
                      :: (fileno stdin, ToPath "/dev/null" "r") :: fds)%list
                     (fileno stdout) = ToPath (dir ++ "/ices.log") "a").
    { cbn [app]. rewrite lookup_fd_past_stream by (cbn [fileno]; lia).
      apply lookup_fd_attach_same. }
    unfold daemonized_world, closing_calls, endpoint_of. tidy.
    destruct (is_fifo (lookup_fd fds (fileno (stream k)))) eqn:Hfifo.
    + at_state ltac:(fun st =>
        run_with (pclose_pipe (stream k) st (eq_trans (Hclose k) Hfifo))).
      at_state ltac:(fun st =>
        rewrite (bind_run (set_logfile None) _ st _ tt eq_refl)).
      tidy. repeat rewrite <- app_assoc. cbn [app].
      exact (Hfinish [Efstat (fileno (stream k)) 0; Epclose (stream k)]
               [(fileno (stream k), NotOpen)] Hout).
    + at_state ltac:(fun st =>
        rewrite (bind_run (fclose (stream k)) _ st _ tt eq_refl)).
      at_state ltac:(fun st =>
        rewrite (bind_run (set_logfile None) _ st _ tt eq_refl)).
      tidy. repeat rewrite <- app_assoc. cbn [app].
      exact (Hfinish [Efstat (fileno (stream k)) 0; Efclose (stream k)]
               [(fileno (stream k), NotOpen)] Hout).
  - at_state ltac:(fun st => rewrite (bind_run (ret tt) _ st st tt eq_refl)).
    unfold daemonized_world, closing_calls. tidy.
    repeat rewrite <- app_assoc. cbn [app].
    exact (Hfinish [] [] (lookup_fd_attach_same _ _ _)).
Qed.

Lemma logfile_opened_fits (p : platform) :
  strlen "Logfile opened" < BUFSIZE p ->
  buff_text p "Logfile opened" [] = Some "Logfile opened".
Proof. intros Hfit. apply buff_text_whole; [reflexivity | exact Hfit]. Qed.

(** X13: start-up in the foreground of a direct build, with no sink yet, a
    base directory of at most 1014 characters and an [fopen] that succeeds:
    [ices_log_initialize] opens the log file in append mode, makes it the
    sink, and writes "Logfile opened" first to the file (flushing it where
    the platform has no [setlinebuf]) and then to the console. *)
Theorem initialize_opens_and_announces :
  forall (p : platform) (s : state) (dir : string),
    REDIRECT_LOGGING p = false ->
    daemon (ices_config s) = false ->
    logfile (ices_config s) = None ->
    base_directory (ices_config s) = Some dir ->
    strlen dir <= 1014 ->
    next_succeeds (os s) = true ->
    strlen "Logfile opened" < BUFSIZE p ->
    exists s' : state,
      ices_log_initialize p s = Some (tt, s') /\
      logfile (ices_config s') = Some (stream (next_stream (os s))) /\
      lasterror s' = lasterror s /\
      trace (os s')
      = (trace (os s)
         ++ Efopen (dir ++ "/ices.log") "a"
              (Some (stream (next_stream (os s))))
         :: (if HAVE_SETLINEBUF p
             then [Esetlinebuf (stream (next_stream (os s)))] else [])
         ++ Ewrite (stream (next_stream (os s)))
              (ToPath (dir ++ "/ices.log") "a") ("Logfile opened" ++ nl)
         :: (if HAVE_SETLINEBUF p
             then [] else [Efflush (stream (next_stream (os s)))])
         ++ [Ewrite stdout (endpoint_of (os s) stdout)
               ("Logfile opened" ++ nl)])%list.
Proof.
  intros p s dir Hr Hd Hsink Hdir Hlen Hnext Hfit.
  set (opened := opened_state p (dir ++ "/ices.log") s).
  exists (with_world opened
            (add_events (dispatched p opened ("Logfile opened" ++ nl))
               (os opened))).
  split.
  { unfold ices_log_initialize.
    rewrite (bind_run get_config _ s s (ices_config s) eq_refl), Hd, Hr.
    rewrite bind_assoc.
    run_with (ices_log_open_logfile_succeeds p s dir Hdir Hlen Hnext).
    change (1 =? 0) with false. cbv iota.
    rewrite (bind_run (ret tt) _ opened opened tt eq_refl).
    apply ices_log_run, logfile_opened_fits, Hfit. }
  split; [reflexivity |]. split; [reflexivity |].
  assert (Hfile : endpoint_of (os opened) (stream (next_stream (os s)))
                  = ToPath (dir ++ "/ices.log") "a").
  { unfold opened, opened_state, endpoint_of.
    destruct (HAVE_SETLINEBUF p); cbn [os fdtab log_event fopened];
      apply lookup_fd_attach_same. }
  assert (Hconsole : endpoint_of (os opened) stdout = endpoint_of (os s) stdout).
  { unfold opened, opened_state, endpoint_of.
    destruct (HAVE_SETLINEBUF p); cbn [os fdtab log_event fopened];
      apply lookup_fd_past_stream; cbn [fileno]; lia. }
  assert (Hlines : dispatched p opened ("Logfile opened" ++ nl)
                   = (Ewrite (stream (next_stream (os s)))
                        (ToPath (dir ++ "/ices.log") "a")
                        ("Logfile opened" ++ nl)
                      :: (if HAVE_SETLINEBUF p
                          then [] else [Efflush (stream (next_stream (os s)))])
                      ++ [Ewrite stdout (endpoint_of (os s) stdout)
                            ("Logfile opened" ++ nl)])%list).
  { unfold dispatched. rewrite Hr.
    change (logfile (ices_config opened))
      with (Some (stream (next_stream (os s)))).
    change (daemon (ices_config opened)) with (daemon (ices_config s)).
    rewrite Hd, Hfile, Hconsole. reflexivity. }
  rewrite Hlines. unfold opened, opened_state.
  destruct (HAVE_SETLINEBUF p);
    cbn [with_world os add_events trace log_event fopened app];
    repeat rewrite <- app_assoc; reflexivity.
Qed.

Lemma initialize_opens_and_announces_witness :
  exists s' : state,
    ices_log_initialize direct_build
      (startup (Some "/tmp/icestest") false false []) = Some (tt, s') /\
    trace (os s')
    = [Efopen "/tmp/icestest/ices.log" "a" (Some (stream 0));
       Esetlinebuf (stream 0);
       Ewrite (stream 0) (ToPath "/tmp/icestest/ices.log" "a")
         ("Logfile opened" ++ nl);
       Ewrite stdout Terminal ("Logfile opened" ++ nl)].
Proof.
  destruct (initialize_opens_and_announces direct_build
              (startup (Some "/tmp/icestest") false false [])
              "/tmp/icestest" eq_refl eq_refl eq_refl eq_refl)
    as (s' & Hrun & _ & _ & Htrace).
  - vm_compute. discriminate.
  - reflexivity.
  - reflexivity.
  - exists s'. split; [exact Hrun | exact Htrace].
Defined.

(** X14: start-up in the foreground of a direct build with a base directory
    that is absent or longer than 1016 characters: [ices_log_initialize]
    opens nothing, prints the error on the console and then, all the same,
    "Logfile opened"; the sink stays closed and the last error holds the
    message. *)
Theorem initialize_announces_despite_failure :
  forall (p : platform) (s : state),
    REDIRECT_LOGGING p = false ->
    daemon (ices_config s) = false ->
    logfile (ices_config s) = None ->
    invalid_base_directory s ->
    strlen invalid_message < BUFSIZE p ->
    exists s' : state,
      ices_log_initialize p s = Some (tt, s') /\
      ices_config s' = ices_config s /\
      result_of (ices_log_get_error s') = Some "Base directory is invalid" /\
      trace (os s')
      = (trace (os s)
         ++ [Ewrite stdout (endpoint_of (os s) stdout)
               ("Base directory is invalid" ++ nl);
             Ewrite stdout (endpoint_of (os s) stdout)
               ("Logfile opened" ++ nl)])%list.
Proof.
  intros p s Hr Hd Hsink Hbad Hfit.
  set (failed := mkState (ices_config s) invalid_message (os s)).
  set (reported := with_world failed
                     (add_events (dispatched p failed (invalid_message ++ nl))
                        (os failed))).
  assert (Hopened : strlen "Logfile opened" < BUFSIZE p).
  { change (strlen "Logfile opened") with 14.
    change (strlen invalid_message) with 25 in Hfit. lia. }
  exists (with_world reported
            (add_events (dispatched p reported ("Logfile opened" ++ nl))
               (os reported))).
  split.
  { unfold ices_log_initialize.
    rewrite (bind_run get_config _ s s (ices_config s) eq_refl), Hd, Hr.
    rewrite bind_assoc.
    run_with (ices_log_open_logfile_invalid p s Hfit Hbad).
    change (0 =? 0) with true. cbv iota.
    rewrite bind_assoc.
    rewrite (bind_run (ices_log_get_error) _ failed failed invalid_message
               eq_refl).
    assert (Hecho : buff_text p "%s" [AStr invalid_message]
                    = Some invalid_message).
    { apply buff_text_whole; [apply vformat_echo | exact Hfit]. }
    run_with (ices_log_run p "%s" [AStr invalid_message] invalid_message
                failed Hecho).
    apply ices_log_run, logfile_opened_fits, Hopened. }
  split; [reflexivity |]. split; [reflexivity |].
  unfold reported, failed, dispatched. rewrite Hr.
  cbn [with_world ices_config os add_events trace].
  rewrite !Hsink, !Hd. unfold endpoint_of, add_events. cbn [fdtab app].
  now rewrite <- app_assoc.
Qed.

Lemma initialize_announces_despite_failure_witness :
  exists s' : state,
    ices_log_initialize direct_build (startup None false false [])
    = Some (tt, s') /\
    logfile (ices_config s') = None /\
    trace (os s')
    = [Ewrite stdout Terminal ("Base directory is invalid" ++ nl);
       Ewrite stdout Terminal ("Logfile opened" ++ nl)].
Proof.
  destruct (initialize_announces_despite_failure direct_build
              (startup None false false []) eq_refl eq_refl eq_refl I)
    as (s' & Hrun & Hcfg & _ & Htrace).
  - reflexivity.
  - exists s'. split; [exact Hrun |].
    split; [now rewrite Hcfg | exact Htrace].
Defined.

(** ** Becoming a daemon *)

Lemma freopen_any (path mode : string) (f : FILE) (s : state) :
  exists (r : option FILE) (w : world),
    freopen path mode f s = Some (r, with_world s w) /\
    trace w = (trace (os s) ++ [Efreopen path mode f r])%list.
Proof.
  destruct s as [cfg err [tr fds ns coming en]].
  unfold freopen, bind, get_world, next_outcome. cbn [os outcomes].
  destruct coming as [| [| e] coming]; eexists; eexists; split; reflexivity.
Qed.

(** X15: with a base directory that is absent or longer than 1016
    characters [ices_log_daemonize] gives up after its first step: standard
    input is reopened on /dev/null and nothing else is called; standard
    output, standard error and the sink are left alone, and the last error
    holds the message. *)
Theorem daemonize_gives_up_without_name :
  forall (p : platform) (s : state),
    invalid_base_directory s ->
    strlen invalid_message < BUFSIZE p ->
    exists (s' : state) (r : option FILE),
      ices_log_daemonize p s = Some (tt, s') /\
      ices_config s' = ices_config s /\
      result_of (ices_log_get_error s') = Some "Base directory is invalid" /\
      trace (os s')
      = (trace (os s) ++ [Efreopen "/dev/null" "r" stdin r])%list.
Proof.
  intros p s Hbad Hfit.
  destruct (freopen_any "/dev/null" "r" stdin s) as (r & w & Hre & Htrace).
  exists (mkState (ices_config s) invalid_message w), r.
  split.
  { unfold ices_log_daemonize. run_with Hre.
    run_with (ices_get_logfile_name_invalid p None LOG_FILENAME_LEN
                (with_world s w) Hfit Hbad).
    reflexivity. }
  split; [reflexivity |]. split; [reflexivity | exact Htrace].
Qed.

Lemma daemonize_gives_up_without_name_witness :
  exists (s' : state) (r : option FILE),
    ices_log_daemonize direct_build (startup None true false []) = Some (tt, s') /\
    logfile (ices_config s') = None /\
    trace (os s') = [Efreopen "/dev/null" "r" stdin r].
Proof.
  destruct (daemonize_gives_up_without_name direct_build
              (startup None true false []) I)
    as (s' & r & Hrun & Hcfg & _ & Htrace).
  - reflexivity.
  - exists s', r. split; [exact Hrun |].
    split; [now rewrite Hcfg | exact Htrace].
Defined.

(** X16: [ices_log_daemonize] when every call succeeds, with a base
    directory of at most 1014 characters and a previous sink that is, if
    there is one, an open file.  Standard input ends on /dev/null; the
    previous sink is found not to be a FIFO and is closed with [fclose];
    standard output is reopened on the log file and standard error
    duplicated from it, but both are then reopened on /dev/null, and the
    closing [ices_log_reopen_logfile] closes standard output itself and opens
    the log file once more, in append mode: that new stream is the sink.
    The last error is not touched. *)
Theorem daemonize_ends_on_a_fresh_log_stream :
  forall (p : platform) (s : state) (dir : string) (prior : option nat),
    base_directory (ices_config s) = Some dir ->
    strlen dir <= 1014 ->
    logfile (ices_config s) = option_map stream prior ->
    (forall k : nat,
        prior = Some k ->
        is_open_file (endpoint_of (os s) (stream k)) = true) ->
    outcomes (os s) = [] ->
    exists s' : state,
      ices_log_daemonize p s = Some (tt, s') /\
      logfile (ices_config s') = Some (stream (next_stream (os s))) /\
      endpoint_of (os s') (stream (next_stream (os s)))
      = ToPath (dir ++ "/ices.log") "a" /\
      endpoint_of (os s') stdin = ToPath "/dev/null" "r" /\
      endpoint_of (os s') stderr = ToPath "/dev/null" "w" /\
      lasterror s' = lasterror s /\
      trace (os s')
      = (trace (os s)
         ++ [Efreopen "/dev/null" "r" stdin (Some stdin);
             Efflush stdout;
             Efreopen (dir ++ "/ices.log") "a" stdout (Some stdout)]
         ++ match prior with
            | Some k => [Efstat (fileno (stream k)) 0; Efclose (stream k)]
            | None => []
            end
         ++ [Edup2 1 2 2;
             Efreopen "/dev/null" "w" stdout (Some stdout);
             Efreopen "/dev/null" "w" stderr (Some stderr);
             Eices_util_fclose stdout;
             Efopen (dir ++ "/ices.log") "a"
               (Some (stream (next_stream (os s))))]
         ++ (if HAVE_SETLINEBUF p
             then [Esetlinebuf (stream (next_stream (os s)))] else []))%list.
Proof.
  intros p s dir prior Hdir Hlen Hsink Hfile Hcoming.
  assert (Hcalls : closing_calls (os s) prior
                   = match prior with
                     | Some k =>
                         [Efstat (fileno (stream k)) 0; Efclose (stream k)]
                     | None => []
                     end).
  { destruct prior as [k |]; [| reflexivity]. cbn [closing_calls].
    specialize (Hfile k eq_refl).
    now destruct (endpoint_of (os s) (stream k)). }
  rewrite <- Hcalls. eexists.
  split; [exact (ices_log_daemonize_succeeds p s dir prior
                   Hdir Hlen Hsink Hcoming) |].
  split; [reflexivity |].
  unfold endpoint_of, daemonized_world. cbn [with_sink os fdtab].
  split; [apply lookup_fd_attach_same |].
  split.
  { rewrite lookup_fd_past_stream by (cbn [fileno]; lia).
    rewrite !lookup_fd_attach_other by (cbn [fileno]; lia).
    destruct prior as [k |]; cbn [app].
    - rewrite lookup_fd_past_stream by (cbn [fileno]; lia).
      rewrite lookup_fd_attach_other by (cbn [fileno]; lia).
      apply lookup_fd_attach_same.
    - rewrite lookup_fd_attach_other by (cbn [fileno]; lia).
      apply lookup_fd_attach_same. }
  split.
  { rewrite lookup_fd_past_stream by (cbn [fileno]; lia).
    rewrite lookup_fd_attach_other by (cbn [fileno]; lia).
    apply lookup_fd_attach_same. }
  split; reflexivity.
Qed.

Lemma daemonize_ends_on_a_fresh_log_stream_witness :
  exists s' : state,
    ices_log_daemonize direct_build opened_sample = Some (tt, s') /\
    logfile (ices_config s') = Some (stream 1) /\
    endpoint_of (os s') (stream 1) = ToPath "/tmp/icestest/ices.log" "a" /\
    In (Efclose (stream 0)) (trace (os s')).
Proof.
  destruct (daemonize_ends_on_a_fresh_log_stream direct_build opened_sample
              "/tmp/icestest" (Some 0%nat) eq_refl)
    as (s' & Hrun & Hsink & Hend & _ & _ & _ & Htrace).
  - vm_compute. discriminate.
  - reflexivity.
  - intros k [= <-]. reflexivity.
  - reflexivity.
  - exists s'. split; [exact Hrun |]. split; [exact Hsink |].
    split; [exact Hend |]. rewrite Htrace. cbn. tauto.
Defined.

(** Settle a statement about what each call of a given list writes. *)
Ltac only_events :=
  repeat first
    [ apply Forall_nil
    | apply Forall_cons;
      [intros x Hx; cbn [written written_to] in Hx; congruence |] ].

(** X17: start-up as a daemon in a direct build, every call succeeding:
    after [ices_log_initialize] the only writes made are of the line
    "Logfile opened", through the new sink, into the log file; nothing is
    written through any other stream, the console included. *)
Theorem initialize_as_daemon_writes_to_the_log_only :
  forall (p : platform) (s : state) (dir : string) (prior : option nat),
    REDIRECT_LOGGING p = false ->
    daemon (ices_config s) = true ->
    base_directory (ices_config s) = Some dir ->
    strlen dir <= 1014 ->
    logfile (ices_config s) = option_map stream prior ->
    outcomes (os s) = [] ->
    strlen "Logfile opened" < BUFSIZE p ->
    exists (s' : state) (evs : list event),
      ices_log_initialize p s = Some (tt, s') /\
      logfile (ices_config s') = Some (stream (next_stream (os s))) /\
      trace (os s') = (trace (os s) ++ evs)%list /\
      In (Ewrite (stream (next_stream (os s)))
            (ToPath (dir ++ "/ices.log") "a") ("Logfile opened" ++ nl)) evs /\
      Forall (fun e => forall g, written_to e = Some g ->
                                 g = stream (next_stream (os s))) evs /\
      Forall (fun e => forall t, written e = Some t ->
                                 t = "Logfile opened" ++ nl) evs.
Proof.
  intros p s dir prior Hr Hd Hdir Hlen Hsink Hcoming Hfit.
  set (sink := stream (next_stream (os s))).
  set (daemonized := with_sink s sink
                       (daemonized_world p (dir ++ "/ices.log") prior (os s))).
  assert (Hfile : endpoint_of (os daemonized) sink
                  = ToPath (dir ++ "/ices.log") "a").
  { apply lookup_fd_attach_same. }
  assert (Hlines : dispatched p daemonized ("Logfile opened" ++ nl)
                   = Ewrite sink (ToPath (dir ++ "/ices.log") "a")
                       ("Logfile opened" ++ nl)
                     :: (if HAVE_SETLINEBUF p then [] else [Efflush sink])).
  { unfold dispatched. rewrite Hr.
    change (logfile (ices_config daemonized)) with (Some sink).
    change (daemon (ices_config daemonized)) with (daemon (ices_config s)).
    rewrite Hd, Hfile. apply app_nil_r. }
  exists (with_world daemonized
            (add_events (dispatched p daemonized ("Logfile opened" ++ nl))
               (os daemonized))),
         (([Efreopen "/dev/null" "r" stdin (Some stdin);
            Efflush stdout;
            Efreopen (dir ++ "/ices.log") "a" stdout (Some stdout)]
           ++ closing_calls (os s) prior
           ++ [Edup2 1 2 2;
               Efreopen "/dev/null" "w" stdout (Some stdout);
               Efreopen "/dev/null" "w" stderr (Some stderr);
               Eices_util_fclose stdout;
               Efopen (dir ++ "/ices.log") "a" (Some sink)]
           ++ (if HAVE_SETLINEBUF p then [Esetlinebuf sink] else []))
          ++ Ewrite sink (ToPath (dir ++ "/ices.log") "a")
               ("Logfile opened" ++ nl)
          :: (if HAVE_SETLINEBUF p then [] else [Efflush sink]))%list.
  split.
  { unfold ices_log_initialize.
    rewrite (bind_run get_config _ s s (ices_config s) eq_refl), Hd.
    run_with (ices_log_daemonize_succeeds p s dir prior
                Hdir Hlen Hsink Hcoming).
    apply ices_log_run, logfile_opened_fits, Hfit. }
  split; [reflexivity |].
  rewrite Hlines.
  split.
  { cbn [with_world os add_events trace daemonized with_sink
         daemonized_world].
    now rewrite <- app_assoc. }
  split.
  { apply in_or_app. right. now left. }
  split.
  - apply Forall_app. split; [| destruct (HAVE_SETLINEBUF p); only_events].
    apply Forall_app. split; [only_events |].
    apply Forall_app. split.
    { destruct prior as [k |]; cbn [closing_calls]; [| only_events].
      destruct (is_fifo (endpoint_of (os s) (stream k))); only_events. }
    apply Forall_app. split; [only_events |].
    destruct (HAVE_SETLINEBUF p); only_events.
  - apply Forall_app. split; [| destruct (HAVE_SETLINEBUF p); only_events].
    apply Forall_app. split; [only_events |].
    apply Forall_app. split.
    { destruct prior as [k |]; cbn [closing_calls]; [| only_events].
      destruct (is_fifo (endpoint_of (os s) (stream k))); only_events. }
    apply Forall_app. split; [only_events |].
    destruct (HAVE_SETLINEBUF p); only_events.
Qed.

Lemma initialize_as_daemon_writes_to_the_log_only_witness :
  exists (s' : state) (evs : list event),
    ices_log_initialize direct_build
      (startup (Some "/tmp/icestest") true false []) = Some (tt, s') /\
    trace (os s') = evs /\
    In (Ewrite (stream 0) (ToPath "/tmp/icestest/ices.log" "a")
          ("Logfile opened" ++ nl)) evs /\
    Forall (fun e => forall g, written_to e = Some g -> g = stream 0) evs.
Proof.
  destruct (initialize_as_daemon_writes_to_the_log_only direct_build
              (startup (Some "/tmp/icestest") true false [])
              "/tmp/icestest" None eq_refl eq_refl eq_refl)
    as (s' & evs & Hrun & _ & Htrace & Hin & Hto & _).
  - vm_compute. discriminate.
  - reflexivity.
  - reflexivity.
  - reflexivity.
  - exists s', evs. repeat split; assumption.
Defined.

(** X18: a tee build at start-up when every call succeeds, with a base
    directory of at most 1014 characters and no sink yet:
    [ices_setup_output_redirects] starts "tee -a '<dir>/ices.log'" with
    [popen], duplicates the pipe's descriptor onto standard output and
    standard error, makes the pipe the sink and returns 1.  From then on all
    three streams feed the same tee process; the log file itself is never
    opened by this process. *)
Theorem redirects_feed_one_tee_process :
  forall (p : platform) (s : state) (dir : string),
    REDIRECT_LOGGING p = true ->
    base_directory (ices_config s) = Some dir ->
    strlen dir <= 1014 ->
    logfile (ices_config s) = None ->
    outcomes (os s) = [] ->
    exists s' : state,
      ices_setup_output_redirects p s = Some (1, s') /\
      logfile (ices_config s') = Some (stream (next_stream (os s))) /\
      sink_kind s' = PipeTee /\
      endpoint_of (os s') (stream (next_stream (os s)))
      = ToProcess ("tee -a '" ++ (dir ++ "/ices.log") ++ "'") /\
      endpoint_of (os s') stdout
      = ToProcess ("tee -a '" ++ (dir ++ "/ices.log") ++ "'") /\
      endpoint_of (os s') stderr
      = ToProcess ("tee -a '" ++ (dir ++ "/ices.log") ++ "'") /\
      lasterror s' = lasterror s /\
      trace (os s')
      = (trace (os s)
         ++ [Epopen ("tee -a '" ++ (dir ++ "/ices.log") ++ "'") "w"
               (Some (stream (next_stream (os s))));
             Edup2 (fileno (stream (next_stream (os s)))) 1 1;
             Edup2 (fileno (stream (next_stream (os s)))) 2 2])%list.
Proof.
  intros p s dir Hr Hdir Hlen Hsink Hcoming.
  rewrite (ices_setup_output_redirects_named p s dir Hr Hdir ltac:(lia)).
  assert (Hcut : truncate (LOG_FILENAME_LEN - 1) (dir ++ "/ices.log")
                 = dir ++ "/ices.log").
  { apply truncate_fits. rewrite strlen_append.
    change (strlen "/ices.log") with 9. unfold LOG_FILENAME_LEN. lia. }
  rewrite Hcut. clear Hcut.
  set (cmd := "tee -a '" ++ (dir ++ "/ices.log") ++ "'").
  destruct s as [[bd dm vb lf] err [tr fds ns coming en]].
  cbn [ices_config base_directory logfile os outcomes next_stream trace
       lasterror] in *.
  subst bd lf coming.
  assert (Hpipe : forall t, lookup_fd ((fileno (stream ns), ToProcess cmd) :: t)
                              (fileno (stream ns)) = ToProcess cmd).
  { intros t. apply lookup_fd_attach_same. }
  eexists. split.
  { at_state ltac:(fun st => run_with (popen_succeeds cmd "w" st eq_refl)).
    unfold popened. tidy. cbn [tl].
    at_state ltac:(fun st =>
      run_with (dup2_ok (fileno (stream ns)) (fileno stdout) st eq_refl)).
    tidy. rewrite Hpipe. change (fileno stdout =? -1) with false. cbv iota.
    at_state ltac:(fun st => rewrite (bind_run (ret tt) _ st st tt eq_refl)).
    at_state ltac:(fun st =>
      run_with (dup2_ok (fileno (stream ns)) (fileno stderr) st eq_refl)).
    tidy.
    rewrite (lookup_fd_attach_other _ (fileno (stream ns)) (fileno stdout))
      by (cbn [fileno]; lia).
    rewrite Hpipe. change (fileno stderr =? -1) with false. cbv iota.
    at_state ltac:(fun st => rewrite (bind_run (ret tt) _ st st tt eq_refl)).
    at_state ltac:(fun st => run_with (ices_log_close_logfile_run st)).
    tidy. reflexivity. }
  unfold sink_kind, endpoint_of.
  cbn [ices_config logfile os fdtab lasterror trace].
  rewrite !(lookup_fd_attach_other _ (fileno (stream ns)))
    by (cbn [fileno]; lia).
  rewrite Hpipe.
  rewrite (lookup_fd_attach_other _ (fileno stdout) (fileno stderr))
    by (cbn [fileno]; lia).
  rewrite !lookup_fd_attach_same.
  repeat (split; [reflexivity |]).
  repeat rewrite <- app_assoc. reflexivity.
Qed.

Lemma redirects_feed_one_tee_process_witness :
  exists s' : state,
    ices_setup_output_redirects tee_build
      (startup (Some "/tmp/icestest") false false []) = Some (1, s') /\
    sink_kind s' = PipeTee /\
    endpoint_of (os s') stdout = ToProcess "tee -a '/tmp/icestest/ices.log'" /\
    endpoint_of (os s') stderr = ToProcess "tee -a '/tmp/icestest/ices.log'".
Proof.
  destruct (redirects_feed_one_tee_process tee_build
              (startup (Some "/tmp/icestest") false false [])
              "/tmp/icestest" eq_refl eq_refl)
    as (s' & Hrun & _ & Hkind & _ & Hout & Herr & _).
  - vm_compute. discriminate.
  - reflexivity.
  - reflexivity.
  - exists s'. repeat split; assumption.
Defined.
